(** * BatChit: the WebSocket relay of backend/main.py

    A shallow embedding of [websocket_endpoint] (backend/main.py) and of the
    tables of backend/models.py, followed by the properties of the relay:
    the connection registry, conversation creation, forwarding and echo,
    and what happens on frames the handler does not expect. *)

From stdpp Require Import gmap strings list fin_maps.
From Stdlib Require Import ZArith Ascii String.
From Stdlib Require DecimalString DecimalPos.
From Stdlib Require Import Sorting.Sorted.

#[local] Set Warnings "-register-all".
Local Open Scope Z_scope.

(** ** Values that cross the wire

    [json.loads] yields Python values; [None] is [JNull].  A JSON object is
    kept as its members in source order: Python's parser lets the last
    occurrence of a key win.  JSON numbers with a fraction or exponent
    (Python floats) are outside this model: a number is an integer. *)

Inductive json : Type :=
| JNull
| JBool (b : bool)
| JInt (z : Z)
| JStr (s : string)
| JArr (items : list json)
| JObj (members : list (string * json)).

Abbreviation dict := (list (string * json)) (only parsing).

(** [d.get(key)]: the value of the last member named [key], [None] when
    there is none. *)
Definition dict_get (key : string) (d : dict) : json :=
  fold_left (fun found kv => if String.eqb (fst kv) key then snd kv else found)
            d JNull.

Definition is_None (v : json) : bool :=
  match v with JNull => true | _ => false end.

(** The exceptions the handler can meet. [SQLAlchemyError] stands for the
    errors a [session.commit()] raises (IntegrityError and the like),
    [RuntimeError] is what the server raises on a send after the socket's
    close. *)
Inductive exn : Type :=
| JSONDecodeError
| AttributeError
| TypeError
| ValueError
| SQLAlchemyError
| RuntimeError
| WebSocketDisconnect.

Inductive outcome (A : Type) : Type :=
| Return (a : A)
| Raise (e : exn).
Arguments Return {A} a.
Arguments Raise {A} e.

(** ** Python's [int()] on the values a token payload can hold

    For a str: surrounding whitespace is dropped, a sign may lead, the rest
    is decimal digits with single underscores allowed between digits.  Only
    ASCII whitespace and digits are read. *)

Module PyInt.

Definition is_space (c : ascii) : bool :=
  let n := nat_of_ascii c in
  ((9 <=? n) && (n <=? 13) || (n =? 32))%nat.

Definition digit_of (c : ascii) : option Z :=
  let n := nat_of_ascii c in
  if ((48 <=? n) && (n <=? 57))%nat then Some (Z.of_nat n - 48) else None.

Definition is_underscore (c : ascii) : bool := (nat_of_ascii c =? 95)%nat.

(** Decimal digits, single underscores allowed between two digits. *)
Fixpoint digits (acc : Z) (after_digit : bool) (cs : list ascii) : option Z :=
  match cs with
  | [] => if after_digit then Some acc else None
  | c :: rest =>
      match digit_of c with
      | Some d => digits (10 * acc + d) true rest
      | None =>
          if is_underscore c && after_digit then digits acc false rest
          else None
      end
  end.

Fixpoint lstrip (cs : list ascii) : list ascii :=
  match cs with
  | c :: rest => if is_space c then lstrip rest else cs
  | [] => []
  end.

Definition strip (cs : list ascii) : list ascii :=
  rev (lstrip (rev (lstrip cs))).

Definition of_str (s : string) : option Z :=
  match strip (list_ascii_of_string s) with
  | c :: rest =>
      if (nat_of_ascii c =? 45)%nat then Z.opp <$> digits 0 false rest
      else if (nat_of_ascii c =? 43)%nat then digits 0 false rest
      else digits 0 false (c :: rest)
  | [] => None
  end.

(** [int(v)]. *)
Definition int (v : json) : outcome Z :=
  match v with
  | JInt z => Return z
  | JBool b => Return (Z.b2z b)
  | JStr s => match of_str s with Some z => Return z | None => Raise ValueError end
  | JNull | JArr _ | JObj _ => Raise TypeError
  end.

End PyInt.

(** ** The tables of models.py

    A table=True SQLModel class does not validate its fields, so a cell holds
    whatever the handler passed: [user_b], [conversation_id] and [content]
    come straight from the inbound frame. *)

Record Conversation : Type := {
  c_id : Z;
  user_a : Z;
  user_b : json;
}.

Record Message : Type := {
  m_id : Z;
  conversation_id : json;
  sender_id : Z;
  content : json;
  timestamp : Z;
}.

Record Store : Type := {
  conversations : list Conversation;
  messages : list Message;
}.

(** An integer primary key left at [None] receives one more than the
    largest key of the table. *)
Definition next_id (ids : list Z) : Z := 1 + fold_right Z.max 0 ids.

(** How an integer column compares a stored cell ([True] is stored as 1). *)
Definition sql_integer (v : json) : option Z :=
  match v with
  | JInt z => Some z
  | JBool b => Some (Z.b2z b)
  | _ => None
  end.

(** ** The read path: GET /messages/{conversation_id} *)

Fixpoint insert_by_timestamp (m : Message) (sorted : list Message) : list Message :=
  match sorted with
  | [] => [m]
  | m' :: rest =>
      if timestamp m <? timestamp m' then m :: sorted
      else m' :: insert_by_timestamp m rest
  end.

Definition order_by_timestamp (ms : list Message) : list Message :=
  fold_left (fun sorted m => insert_by_timestamp m sorted) ms [].

Definition in_conversation (cid : Z) (m : Message) : bool :=
  match sql_integer (conversation_id m) with
  | Some z => z =? cid
  | None => false
  end.

Definition get_messages (cid : Z) (s : Store) : list Message :=
  order_by_timestamp (List.filter (in_conversation cid) (messages s)).

(** ** The process state *)

Abbreviation WebSocket := nat (only parsing).

(** [payload_out]; [json.dumps] and [str(msg.timestamp)] render it. *)
Record Frame : Type := {
  f_conversation_id : json;
  f_sender_id : Z;
  f_content : json;
  f_timestamp : Z;
}.

(** What the server does on the sockets, oldest first. *)
Inductive effect : Type :=
| Accept (ws : WebSocket)
| Close (ws : WebSocket) (code : Z)
| SendText (ws : WebSocket) (frame : Frame).

(** How a run of [websocket_endpoint] ended. *)
Inductive ending : Type :=
| Rejected
| Disconnected
| Crashed (e : exn).

(** One run of [websocket_endpoint]: inside its [while True] loop with its
    local [user_id], or over ([identity] is the [user_id] it had bound). *)
Inductive session : Type :=
| Active (user_id : Z)
| Closed (identity : option Z) (how : ending).

Record World : Type := {
  active_connections : gmap Z nat;
  db : Store;
  sessions : gmap nat session;
  wire : list effect;
}.

Definition boot : World :=
  {| active_connections := ∅;
     db := {| conversations := []; messages := [] |};
     sessions := ∅;
     wire := [] |}.

(** ** The collaborators the handler imports

    auth.py and database.py are not part of the sources read here, so what
    they decide is a parameter: which tokens decode to which payload, and
    whether the engine accepts a row at [session.commit()]. *)

Class Collaborators : Type := {
  decode_access_token : string -> option dict;
  accepts_conversation : Store -> Z -> json -> bool;
  accepts_message : Store -> json -> Z -> json -> bool;
}.

(** ** The handler's steps, as state-passing computations that may raise *)

Definition task (A : Type) : Type := World -> World * outcome A.

Definition ret {A : Type} (a : A) : task A := fun w => (w, Return a).

Definition raise {A : Type} (e : exn) : task A := fun w => (w, Raise e).

Definition bind {A B : Type} (t : task A) (k : A -> task B) : task B :=
  fun w =>
    match t w with
    | (w', Return a) => k a w'
    | (w', Raise e) => (w', Raise e)
    end.

Declare Scope task_scope.
Delimit Scope task_scope with task.
Notation "x <- t ;; k" := (bind t (fun x => k))
  (at level 100, t at next level, right associativity) : task_scope.
Notation "t ;;; k" := (bind t (fun _ => k))
  (at level 100, right associativity) : task_scope.

Definition with_connections (f : gmap Z nat -> gmap Z nat) (w : World) : World :=
  {| active_connections := f (active_connections w);
     db := db w; sessions := sessions w; wire := wire w |}.

Definition with_db (s : Store) (w : World) : World :=
  {| active_connections := active_connections w;
     db := s; sessions := sessions w; wire := wire w |}.

Definition with_session (ws : WebSocket) (s : session) (w : World) : World :=
  {| active_connections := active_connections w;
     db := db w; sessions := <[ws := s]> (sessions w); wire := wire w |}.

Definition emit (e : effect) (w : World) : World :=
  {| active_connections := active_connections w;
     db := db w; sessions := sessions w; wire := wire w ++ [e] |}.

(** The handler that served [ws] has returned or raised: the server has
    closed the socket. *)
Definition ended (w : World) (ws : WebSocket) : bool :=
  match sessions w !! ws with
  | Some (Closed _ _) => true
  | _ => false
  end.

Section Relay.

Context `{Env : Collaborators}.

(** [conv = Conversation(user_a=user_id, user_b=receiver_id)];
    [session.add(conv)]; [session.commit()]; [session.refresh(conv)];
    the value is [conv.id]. *)
Definition add_conversation (user_id : Z) (receiver_id : json) : task Z :=
  fun w =>
    let s := db w in
    if accepts_conversation s user_id receiver_id then
      let conv := {| c_id := next_id (c_id <$> conversations s);
                     user_a := user_id;
                     user_b := receiver_id |} in
      (with_db {| conversations := conversations s ++ [conv];
                  messages := messages s |} w,
       Return (c_id conv))
    else (w, Raise SQLAlchemyError).

(** [msg = Message(conversation_id=conv_id, sender_id=user_id,
    content=content)] with [timestamp] from [datetime.utcnow];
    [session.add(msg)]; [session.commit()]; [session.refresh(msg)]. *)
Definition add_message (conv_id : json) (user_id : Z) (body : json) (utcnow : Z)
  : task Message :=
  fun w =>
    let s := db w in
    if accepts_message s conv_id user_id body then
      let msg := {| m_id := next_id (m_id <$> messages s);
                    conversation_id := conv_id;
                    sender_id := user_id;
                    content := body;
                    timestamp := utcnow |} in
      (with_db {| conversations := conversations s;
                  messages := messages s ++ [msg] |} w,
       Return msg)
    else (w, Raise SQLAlchemyError).

(** [active_connections.get(receiver_id)]: the keys are ints; [True] and
    [False] hash and compare as 1 and 0, a str or [None] matches no key,
    a list or dict is unhashable. *)
Definition connections_get (receiver_id : json) : task (option WebSocket) :=
  fun w =>
    match receiver_id with
    | JInt z => (w, Return (active_connections w !! z))
    | JBool b => (w, Return (active_connections w !! Z.b2z b))
    | JNull | JStr _ => (w, Return None)
    | JArr _ | JObj _ => (w, Raise TypeError)
    end.

(** [await ws.send_text(json.dumps(payload_out))]: on a socket whose
    handler has ended the send raises and nothing goes out. *)
Definition send_text (ws : WebSocket) (payload_out : Frame) : task unit :=
  fun w =>
    if ended w ws then (w, Raise RuntimeError)
    else (emit (SendText ws payload_out) w, Return tt).

(** What [await websocket.receive_text()] brings: a text, given here by
    what [json.loads] makes of it ([None] when it raises) together with the
    reading of [datetime.utcnow] at that turn, or the end of the
    connection. *)
Inductive inbound : Type :=
| Text (parsed : option json) (utcnow : Z)
| ConnectionLost.

(** [obj.get] needs a dict. *)
Definition as_dict (obj : json) : task dict :=
  match obj with
  | JObj members => ret members
  | _ => raise AttributeError
  end.

(** One pass through the body of [while True] (main.py, lines 153-194). *)
Definition loop_body (user_id : Z) (websocket : WebSocket) (what : inbound)
  : task unit :=
  match what with
  | ConnectionLost => raise WebSocketDisconnect
  | Text parsed utcnow =>
      (obj <- match parsed with
              | Some v => ret v
              | None => raise JSONDecodeError
              end ;;
       d <- as_dict obj ;;
       let receiver_id := dict_get "to" d in
       let body := dict_get "content" d in
       let conv_id := dict_get "conversation_id" d in
       conv_id <- (if is_None conv_id
                   then (new_id <- add_conversation user_id receiver_id ;;
                         ret (JInt new_id))
                   else ret conv_id) ;;
       msg <- add_message conv_id user_id body utcnow ;;
       let payload_out := {| f_conversation_id := conv_id;
                             f_sender_id := user_id;
                             f_content := body;
                             f_timestamp := timestamp msg |} in
       ws <- connections_get receiver_id ;;
       match ws with
       | Some peer => send_text peer payload_out
       | None => ret tt
       end ;;;
       send_text websocket payload_out)%task
  end.

(** The [try] around the loop: [except WebSocketDisconnect] deletes the
    entry of [user_id] if there is one; any other exception leaves the
    function as it is. *)
Definition turn (user_id : Z) (websocket : WebSocket) (what : inbound)
           (w : World) : World :=
  match loop_body user_id websocket what w with
  | (w', Return _) => w'
  | (w', Raise WebSocketDisconnect) =>
      with_session websocket (Closed (Some user_id) Disconnected)
        (with_connections
           (fun conns => if decide (is_Some (conns !! user_id))
                         then delete user_id conns else conns) w')
  | (w', Raise e) =>
      with_session websocket (Closed (Some user_id) (Crashed e)) w'
  end.

(** [not payload]: [None] and the empty dict are falsy. *)
Definition falsy (payload : option dict) : bool :=
  match payload with
  | None | Some [] => true
  | Some (_ :: _) => false
  end.

(** The start of [websocket_endpoint] up to the loop (lines 139-147). *)
Definition open (websocket : WebSocket) (token : string) (w : World) : World :=
  let w := emit (Accept websocket) w in
  let payload := decode_access_token token in
  if falsy payload then
    with_session websocket (Closed None Rejected)
      (emit (Close websocket 1008) w)
  else
    match PyInt.int (dict_get "sub" (default [] payload)) with
    | Raise e => with_session websocket (Closed None (Crashed e)) w
    | Return user_id =>
        with_session websocket (Active user_id)
          (with_connections (fun conns => <[user_id := websocket]> conns) w)
    end.

(** What the event loop can make happen: a client connects on a socket not
    seen before, or the pending [receive_text] of a running session
    completes.  Other events have no session to act on.  A pass through
    the loop body is one step: from the return of [receive_text] to the
    first [send_text] the body does not suspend, and the two sends are
    taken together.  The wire holds the sends that went out. *)
Inductive event : Type :=
| Connect (ws : WebSocket) (token : string)
| Receive (ws : WebSocket) (what : inbound).

Definition step (w : World) (ev : event) : World :=
  match ev with
  | Connect ws token =>
      match sessions w !! ws with
      | None => open ws token w
      | Some _ => w
      end
  | Receive ws what =>
      match sessions w !! ws with
      | Some (Active user_id) => turn user_id ws what w
      | _ => w
      end
  end.

Definition run (w : World) (evs : list event) : World := fold_left step evs w.

End Relay.

(** ** A concrete set of collaborators, for running the model

    Tokens are issued by /login with [{"sub": str(user.id)}].  The engine
    enforces what models.py declares without [Optional]: [user_b],
    [conversation_id] and [content] are NOT NULL, and a list or dict cannot
    be bound to a column. *)

Module Sample.

Definition bindable (v : json) : bool :=
  match v with
  | JNull | JArr _ | JObj _ => false
  | JBool _ | JInt _ | JStr _ => true
  end.

Definition decode (token : string) : option dict :=
  if String.eqb token "alice" then Some [("sub", JStr "1")]
  else if String.eqb token "bob" then Some [("sub", JStr "2")]
  else if String.eqb token "eve" then Some [("sub", JStr "5")]
  else None.

Definition env : Collaborators :=
  {| decode_access_token := decode;
     accepts_conversation := fun _ _ receiver => bindable receiver;
     accepts_message := fun _ conv _ body => bindable conv && bindable body |}.

Definition run : World -> list event -> World := @run env.
Definition step : World -> event -> World := @step env.

(** A text frame received at clock reading [utcnow]. *)
Definition text (ws : WebSocket) (d : dict) (utcnow : Z) : event :=
  Receive ws (Text (Some (JObj d)) utcnow).

Definition hi : dict := [("to", JInt 2); ("content", JStr "hi")].
Definition again : dict := [("to", JInt 2); ("content", JStr "again")].
Definition hello_back : dict := [("to", JInt 1); ("content", JStr "hello")].
Definition no_content : dict := [("to", JInt 1)].
Definition into_conversation_1 : dict :=
  [("to", JInt 2); ("content", JStr "psst"); ("conversation_id", JInt 1)].

(** alice is user 1, bob user 2, eve user 5. *)
Definition alice_alone : World := run boot [Connect 1 "alice"].

Definition alice_and_bob : World :=
  run boot [Connect 1 "alice"; Connect 2 "bob"].

Definition eve_twice : World :=
  run boot [Connect 1 "eve"; Connect 2 "eve"].

Definition eve_first_gone : World :=
  run boot [Connect 1 "eve"; Connect 2 "eve"; Receive 1 ConnectionLost].

Definition alice_wrote_bob : World :=
  run boot [Connect 1 "alice"; Connect 2 "bob"; Connect 3 "eve";
            text 1 hi 100].

Definition three_greetings : World :=
  run boot [Connect 1 "alice"; Connect 2 "bob";
            text 1 hi 100; text 1 hi 101; text 2 hello_back 102].

End Sample.

(** ** Vocabulary of the statements *)

(** The [user_id] a session ran under, if it got that far. *)
Definition identity_of (s : session) : option Z :=
  match s with
  | Active user_id => Some user_id
  | Closed identity _ => identity
  end.

Definition ended_by_disconnect (s : session) : bool :=
  match s with
  | Closed _ Disconnected => true
  | _ => false
  end.

(** A value usable as a dict key. *)
Definition hashable (v : json) : bool :=
  match v with
  | JArr _ | JObj _ => false
  | _ => true
  end.

(** The socket [active_connections.get(v)] finds. *)
Definition peer_of (w : World) (v : json) : option WebSocket :=
  match v with
  | JInt z => active_connections w !! z
  | JBool b => active_connections w !! Z.b2z b
  | _ => None
  end.

(** The recipient [v] can be sent to: the registry has no socket for it,
    or one whose handler has not ended. *)
Definition recipient_live (w : World) (v : json) : bool :=
  match peer_of w v with
  | Some peer => negb (ended w peer)
  | None => true
  end.

(** The part of the loop body after the message is stored (lines 188-194):
    look the recipient up, send to its socket if there is one, echo. *)
Definition dispatch (receiver_id : json) (websocket : WebSocket)
           (payload_out : Frame) : task unit :=
  bind (connections_get receiver_id)
       (fun ws => bind match ws with
                       | Some peer => send_text peer payload_out
                       | None => ret tt
                       end
                       (fun _ => send_text websocket payload_out)).

(** The conversation row a frame without [conversation_id] creates. *)
Definition new_conversation (s : Store) (user_id : Z) (d : dict) : Conversation :=
  {| c_id := next_id (c_id <$> conversations s);
     user_a := user_id;
     user_b := dict_get "to" d |}.

(** The [conv_id] the handler continues with. *)
Definition conversation_ref (s : Store) (d : dict) : json :=
  if is_None (dict_get "conversation_id" d)
  then JInt (next_id (c_id <$> conversations s))
  else dict_get "conversation_id" d.

Definition stored_message (s : Store) (user_id : Z) (d : dict) (utcnow : Z) : Message :=
  {| m_id := next_id (m_id <$> messages s);
     conversation_id := conversation_ref s d;
     sender_id := user_id;
     content := dict_get "content" d;
     timestamp := utcnow |}.

Definition outbound (s : Store) (user_id : Z) (d : dict) (utcnow : Z) : Frame :=
  {| f_conversation_id := conversation_ref s d;
     f_sender_id := user_id;
     f_content := dict_get "content" d;
     f_timestamp := utcnow |}.

(** The two users of a conversation row, in either order. *)
Definition between (x y : Z) (c : Conversation) : bool :=
  match sql_integer (user_b c) with
  | Some b => (user_a c =? x) && (b =? y) || (user_a c =? y) && (b =? x)
  | None => false
  end.

Section Vocabulary.

Context `{Env : Collaborators}.

(** The engine accepts every row the frame [d] from [user_id] makes the
    handler commit. *)
Definition store_accepts (s : Store) (user_id : Z) (d : dict) : bool :=
  if is_None (dict_get "conversation_id" d) then
    accepts_conversation s user_id (dict_get "to" d)
    && accepts_message
         {| conversations := conversations s ++ [new_conversation s user_id d];
            messages := messages s |}
         (conversation_ref s d) user_id (dict_get "content" d)
  else
    accepts_message s (dict_get "conversation_id" d) user_id (dict_get "content" d).

(** The token decodes to a payload whose [sub] reads as [user_id]. *)
Definition authenticates (token : string) (user_id : Z) : Prop :=
  falsy (decode_access_token token) = false /\
  PyInt.int (dict_get "sub" (default [] (decode_access_token token)))
  = Return user_id.

(** The ways one event can change the sessions and the registry. *)
Inductive lifecycle (w w' : World) (ev : event) : Prop :=
| Untouched :
    sessions w' = sessions w ->
    active_connections w' = active_connections w ->
    lifecycle w w' ev
| Registered (ws : WebSocket) (token : string) (uid : Z) :
    ev = Connect ws token ->
    sessions w !! ws = None ->
    authenticates token uid ->
    sessions w' = <[ws := Active uid]> (sessions w) ->
    active_connections w' = <[uid := ws]> (active_connections w) ->
    lifecycle w w' ev
| Refused (ws : WebSocket) (token : string) (how : ending) :
    ev = Connect ws token ->
    sessions w !! ws = None ->
    sessions w' = <[ws := Closed None how]> (sessions w) ->
    active_connections w' = active_connections w ->
    lifecycle w w' ev
| Unregistered (ws : WebSocket) (uid : Z) :
    ev = Receive ws ConnectionLost ->
    sessions w !! ws = Some (Active uid) ->
    sessions w' = <[ws := Closed (Some uid) Disconnected]> (sessions w) ->
    active_connections w' = delete uid (active_connections w) ->
    lifecycle w w' ev
| Failed (ws : WebSocket) (uid : Z) (what : inbound) (e : exn) :
    ev = Receive ws what ->
    sessions w !! ws = Some (Active uid) ->
    sessions w' = <[ws := Closed (Some uid) (Crashed e)]> (sessions w) ->
    active_connections w' = active_connections w ->
    lifecycle w w' ev.

(** [ev], arriving in [w], is a login as [uid]: a connection on a socket
    not seen before, with a token whose [sub] reads as [uid]. *)
Definition logs_in (uid : Z) (w : World) (ev : event) : Prop :=
  exists ws token,
    ev = Connect ws token /\ sessions w !! ws = None /\ authenticates token uid.

(** [ev], arriving in [w], is the disconnect of a session of [uid]. *)
Definition disconnects (uid : Z) (w : World) (ev : event) : Prop :=
  exists ws,
    ev = Receive ws ConnectionLost /\ sessions w !! ws = Some (Active uid).

(** None of the events [evs], arriving one after the other from [w] on,
    is a [what]. *)
Fixpoint never (what : World -> event -> Prop) (w : World) (evs : list event)
  : Prop :=
  match evs with
  | [] => True
  | ev :: rest => ~ what w ev /\ never what (step w ev) rest
  end.

End Vocabulary.

(** Every registry entry points at the socket of a session that ran under
    that identity and has not ended by disconnect. *)
Definition registry_sound (w : World) : Prop :=
  forall (uid : Z) (ws : WebSocket),
    active_connections w !! uid = Some ws ->
    exists s, sessions w !! ws = Some s /\
              identity_of s = Some uid /\
              ended_by_disconnect s = false.

(** A session in its loop whose identity no other session ever had is the
    one the registry holds for that identity. *)
Definition sole_session_registered (w : World) : Prop :=
  forall (uid : Z) (ws : WebSocket),
    sessions w !! ws = Some (Active uid) ->
    (forall ws' s', sessions w !! ws' = Some s' ->
                    identity_of s' = Some uid -> ws' = ws) ->
    active_connections w !! uid = Some ws.

(** Some session is in its loop for [user_id]. *)
Definition loop_active (w : World) (user_id : Z) : Prop :=
  exists ws, sessions w !! ws = Some (Active user_id).

(** ** The HTTP handlers of main.py

    The remaining routes: /register and /login on the user table,
    /conversations/{user_id} and DELETE /conversation/{conversation_id} on
    the tables the relay writes.  What password hashing and token issuing do
    is auth.py's, and how the engine binds a value that is not a str to the
    [username] column is the engine's: both are parameters.  A str is bound
    as itself and compared character by character (binary collation). *)

(** [bool(v)]. *)
Definition truthy (v : json) : bool :=
  match v with
  | JNull => false
  | JBool b => b
  | JInt z => negb (z =? 0)
  | JStr s => negb (String.eqb s "")
  | JArr items => match items with [] => false | _ => true end
  | JObj members => match members with [] => false | _ => true end
  end.

(** [str(n)] for an int. *)
Definition str (n : Z) : string :=
  DecimalString.NilZero.string_of_int (Z.to_int n).

(** The number a digit sequence denotes after the digits read so far. *)
Fixpoint uint_value (acc : Z) (d : Decimal.uint) : Z :=
  match d with
  | Decimal.Nil => acc
  | Decimal.D0 d => uint_value (10 * acc) d
  | Decimal.D1 d => uint_value (10 * acc + 1) d
  | Decimal.D2 d => uint_value (10 * acc + 2) d
  | Decimal.D3 d => uint_value (10 * acc + 3) d
  | Decimal.D4 d => uint_value (10 * acc + 4) d
  | Decimal.D5 d => uint_value (10 * acc + 5) d
  | Decimal.D6 d => uint_value (10 * acc + 6) d
  | Decimal.D7 d => uint_value (10 * acc + 7) d
  | Decimal.D8 d => uint_value (10 * acc + 8) d
  | Decimal.D9 d => uint_value (10 * acc + 9) d
  end.

Definition uint_chars (d : Decimal.uint) : list ascii :=
  list_ascii_of_string (DecimalString.NilEmpty.string_of_uint d).

Record User : Type := {
  u_id : Z;
  username : string;
  password_hash : string;
}.

(** What a route answers: its return value, an [HTTPException] it raised,
    or an exception nobody caught. *)
Inductive reply (A : Type) : Type :=
| Sent (body : A)
| HTTPException (status_code : Z) (detail : string)
| Uncaught (e : exn).
Arguments Sent {A} body.
Arguments HTTPException {A} status_code detail.
Arguments Uncaught {A} e.

Class Accounts : Type := {
  hash_password : json -> outcome string;
  verify_password : json -> string -> outcome bool;
  create_access_token : dict -> string;
  bind_other : json -> outcome string;
}.

Section Routes.

Context `{Acc : Accounts}.

(** The text the engine uses for [v] in [User.username == v] and in the
    inserted row. *)
Definition as_text (v : json) : outcome string :=
  match v with
  | JStr s => Return s
  | _ => bind_other v
  end.

(** [session.exec(select(User).where(User.username == name)).first()]. *)
Definition user_named (name : string) (users : list User) : option User :=
  List.find (fun u => String.eqb (username u) name) users.

(** POST /register (main.py, lines 34-52); the body of the answer is
    [(user.id, user.username)]. *)
Definition register (payload : dict) (users : list User)
  : list User * reply (Z * string) :=
  let name := dict_get "username" payload in
  let password := dict_get "password" payload in
  if negb (truthy name) || negb (truthy password) then
    (users, HTTPException 400 "Username and password required")
  else
    match as_text name with
    | Raise e => (users, Uncaught e)
    | Return name =>
        match user_named name users with
        | Some _ => (users, HTTPException 400 "Username already exists")
        | None =>
            match hash_password password with
            | Raise e => (users, Uncaught e)
            | Return hashed =>
                let user := {| u_id := next_id (u_id <$> users);
                               username := name;
                               password_hash := hashed |} in
                (users ++ [user], Sent (u_id user, username user))
            end
        end
    end.

(** POST /login (main.py, lines 55-72); the body of the answer is
    [(access_token, (user.id, user.username))].  A missing username makes
    the query [username IS NULL], which no row satisfies. *)
Definition login (payload : dict) (users : list User)
  : reply (string * (Z * string)) :=
  let name := dict_get "username" payload in
  let password := dict_get "password" payload in
  let found :=
    match name with
    | JNull => Return None
    | _ => match as_text name with
           | Raise e => Raise e
           | Return name => Return (user_named name users)
           end
    end in
  match found with
  | Raise e => Uncaught e
  | Return None => HTTPException 400 "User not found"
  | Return (Some user) =>
      match verify_password password (password_hash user) with
      | Raise e => Uncaught e
      | Return false => HTTPException 400 "Incorrect password"
      | Return true =>
          Sent (create_access_token [("sub", JStr (str (u_id user)))],
                (u_id user, username user))
      end
  end.

End Routes.

(** GET /conversations/{user_id} (main.py, lines 79-87). *)
Definition takes_part (user_id : Z) (c : Conversation) : bool :=
  (user_a c =? user_id)
  || match sql_integer (user_b c) with
     | Some b => b =? user_id
     | None => false
     end.

Definition get_conversations (user_id : Z) (s : Store) : list Conversation :=
  List.filter (takes_part user_id) (conversations s).

(** DELETE /conversation/{conversation_id} (main.py, lines 101-117): the
    messages selected by [conversation_id] are deleted one by one, each by
    its primary key, then the conversation by its own. *)
Definition delete_conversation (cid : Z) (s : Store) : Store * reply string :=
  match List.find (fun c => c_id c =? cid) (conversations s) with
  | None => (s, HTTPException 404 "Conversation not found")
  | Some conv =>
      let msgs := List.filter (in_conversation cid) (messages s) in
      ({| conversations :=
            List.filter (fun c => negb (c_id c =? c_id conv)) (conversations s);
          messages :=
            List.filter (fun m => negb (existsb (Z.eqb (m_id m)) (m_id <$> msgs)))
                        (messages s) |},
       Sent "Conversation deleted successfully")
  end.

(** Collaborators and data for running the routes: a hash that can be
    checked, and tokens that [Sample.decode] reads back. *)
Module Fixtures.

Definition hash (password : json) : outcome string :=
  match password with
  | JStr s => Return ("hashed:" ++ s)%string
  | _ => Raise TypeError
  end.

Definition verify (password : json) (hashed : string) : outcome bool :=
  match password with
  | JStr s => Return (String.eqb ("hashed:" ++ s)%string hashed)
  | _ => Raise TypeError
  end.

Definition token_for (claims : dict) : string :=
  match dict_get "sub" claims with
  | JStr sub =>
      if String.eqb sub "1" then "alice"
      else if String.eqb sub "2" then "bob"
      else if String.eqb sub "5" then "eve"
      else "nobody"
  | _ => "nobody"
  end.

Definition acc : Accounts :=
  {| hash_password := hash;
     verify_password := verify;
     create_access_token := token_for;
     bind_other := fun _ => Raise SQLAlchemyError |}.

Definition alice_form : dict :=
  [("username", JStr "alice"); ("password", JStr "wonderland")].

Definition alice_again : dict :=
  [("username", JStr "alice"); ("password", JStr "other")].

Definition one_user : list User :=
  [{| u_id := 1; username := "alice"; password_hash := "hashed:wonderland" |}].

(** A frame addressed to a list, for conversation 1. *)
Definition to_a_list : dict :=
  [("to", JArr [JInt 2]); ("content", JStr "x"); ("conversation_id", JInt 1)].

Definition first_greeting : Message :=
  {| m_id := 1; conversation_id := JInt 1; sender_id := 1;
     content := JStr "hi"; timestamp := 100 |}.

(** alice and bob are connected, then bob's session ends on a text that is
    not JSON: bob's entry still points at socket 2. *)
Definition bob_crashed : World :=
  Sample.run boot [Connect 1 "alice"; Connect 2 "bob"; Receive 2 (Text None 0)].

(** eve logs in, disconnects, and logs in again on a second socket. *)
Definition eve_returns : list event :=
  [Connect 1 "eve"; Receive 1 ConnectionLost; Connect 2 "eve";
   Sample.text 2 Sample.hi 3].

End Fixtures.

(** Some session ran under [user_id]: it was opened with a token whose
    [sub] reads as [user_id]. *)
Definition authenticated (w : World) (user_id : Z) : Prop :=
  exists ws s, sessions w !! ws = Some s /\ identity_of s = Some user_id.

(** No two rows of a table share their primary key. *)
Definition unique_keys (s : Store) : Prop :=
  NoDup (c_id <$> conversations s) /\ NoDup (m_id <$> messages s).

Definition by_timestamp (m m' : Message) : Prop := timestamp m <= timestamp m'.

(** * Properties *)

Section Properties.

Context `{Env : Collaborators}.

Ltac unfold_handler :=
  unfold turn, loop_body, bind, as_dict, ret, raise, add_conversation,
    add_message, connections_get, send_text, store_accepts, stored_message,
    outbound, new_conversation, conversation_ref, peer_of, hashable in *.

Lemma send_text_live (w : World) (ws : WebSocket) (f : Frame) :
  ended w ws = false ->
  send_text ws f w = (emit (SendText ws f) w, Return tt).
Proof. intros Hlive. unfold send_text. rewrite Hlive. reflexivity. Qed.

Lemma send_text_ended (w : World) (ws : WebSocket) (f : Frame) :
  ended w ws = true ->
  send_text ws f w = (w, Raise RuntimeError).
Proof. intros Hended. unfold send_text. rewrite Hended. reflexivity. Qed.

Lemma active_not_ended (w : World) (ws : WebSocket) (a : Z) :
  sessions w !! ws = Some (Active a) -> ended w ws = false.
Proof. intros Hs. unfold ended. rewrite Hs. reflexivity. Qed.

Lemma dispatch_live (w : World) (v : json) (ws : WebSocket) (f : Frame) :
  hashable v = true ->
  recipient_live w v = true ->
  ended w ws = false ->
  dispatch v ws f w =
  (match peer_of w v with
   | Some peer => emit (SendText ws f) (emit (SendText peer f) w)
   | None => emit (SendText ws f) w
   end, Return tt).
Proof.
  intros Hhash Hlive Hws. unfold dispatch, bind, connections_get, ret.
  unfold recipient_live, peer_of in *.
  destruct v; try discriminate; cbn;
    try (rewrite send_text_live by exact Hws; reflexivity);
    match goal with
    | |- context [active_connections w !! ?k] =>
        destruct (active_connections w !! k) as [peer |]
    end;
    try (rewrite send_text_live by exact Hws; reflexivity);
    apply negb_true_iff in Hlive;
    rewrite (send_text_live _ _ _ Hlive), send_text_live by exact Hws;
    reflexivity.
Qed.

Lemma dispatch_stale (w : World) (v : json) (ws peer : WebSocket) (f : Frame) :
  peer_of w v = Some peer ->
  ended w peer = true ->
  dispatch v ws f w = (w, Raise RuntimeError).
Proof.
  intros Hpeer Hended. unfold dispatch, bind, connections_get, ret.
  unfold peer_of in Hpeer.
  destruct v; try discriminate; rewrite Hpeer;
    rewrite (send_text_ended _ _ _ Hended); reflexivity.
Qed.

Lemma dispatch_unhashable (w : World) (v : json) (ws : WebSocket) (f : Frame) :
  hashable v = false ->
  dispatch v ws f w = (w, Raise TypeError).
Proof.
  intros Hhash. unfold dispatch, bind, connections_get.
  destruct v; try discriminate; reflexivity.
Qed.

Lemma recipient_not_live (w : World) (v : json) :
  recipient_live w v = false ->
  exists peer, peer_of w v = Some peer /\ ended w peer = true.
Proof.
  unfold recipient_live. destruct (peer_of w v) as [peer |]; [| discriminate].
  intros Hended. apply negb_false_iff in Hended. eauto.
Qed.

(** The loop body on a dict, with its two commits spelled out. *)
Lemma loop_body_dict (w : World) (ws : WebSocket) (a : Z) (d : dict) (utcnow : Z) :
  loop_body a ws (Text (Some (JObj d)) utcnow) w =
  if is_None (dict_get "conversation_id" d) then
    if accepts_conversation (db w) a (dict_get "to" d) then
      let s1 := {| conversations := conversations (db w) ++ [new_conversation (db w) a d];
                   messages := messages (db w) |} in
      if accepts_message s1 (conversation_ref (db w) d) a (dict_get "content" d) then
        dispatch (dict_get "to" d) ws (outbound (db w) a d utcnow)
          (with_db {| conversations := conversations s1;
                      messages := messages (db w)
                                  ++ [stored_message (db w) a d utcnow] |} w)
      else (with_db s1 w, Raise SQLAlchemyError)
    else (w, Raise SQLAlchemyError)
  else
    if accepts_message (db w) (dict_get "conversation_id" d) a (dict_get "content" d) then
      dispatch (dict_get "to" d) ws (outbound (db w) a d utcnow)
        (with_db {| conversations := conversations (db w);
                    messages := messages (db w)
                                ++ [stored_message (db w) a d utcnow] |} w)
    else (w, Raise SQLAlchemyError).
Proof.
  unfold loop_body, bind, as_dict, ret, add_conversation, add_message,
    dispatch, stored_message, outbound, new_conversation, conversation_ref.
  destruct (is_None (dict_get "conversation_id" d)) eqn:Hconv; cbn.
  - destruct (accepts_conversation _ _ _); cbn; [| reflexivity].
    destruct (accepts_message _ _ _ _); cbn; reflexivity.
  - destruct (accepts_message _ _ _ _); cbn; reflexivity.
Qed.

(** A frame that is a dict, whose rows the store accepts, whose recipient is
    hashable and can be sent to: the whole turn, spelled out. *)
Lemma turn_delivers (w : World) (ws : WebSocket) (a : Z) (d : dict) (utcnow : Z) :
  sessions w !! ws = Some (Active a) ->
  store_accepts (db w) a d = true ->
  hashable (dict_get "to" d) = true ->
  recipient_live w (dict_get "to" d) = true ->
  turn a ws (Text (Some (JObj d)) utcnow) w =
  {| active_connections := active_connections w;
     db := {| conversations :=
                conversations (db w)
                ++ (if is_None (dict_get "conversation_id" d)
                    then [new_conversation (db w) a d] else []);
              messages := messages (db w) ++ [stored_message (db w) a d utcnow] |};
     sessions := sessions w;
     wire := wire w
             ++ match peer_of w (dict_get "to" d) with
                | Some peer => [SendText peer (outbound (db w) a d utcnow)]
                | None => []
                end
             ++ [SendText ws (outbound (db w) a d utcnow)] |}.
Proof.
  intros Hs Hacc Hhash Hlive. apply active_not_ended in Hs.
  unfold turn. rewrite loop_body_dict. unfold store_accepts in Hacc.
  destruct (is_None (dict_get "conversation_id" d)) eqn:Hconv.
  - apply andb_prop in Hacc as [Hc Hm]. rewrite Hc. cbv zeta. rewrite Hm.
    rewrite dispatch_live by assumption.
    change (peer_of (with_db _ w) (dict_get "to" d))
      with (peer_of w (dict_get "to" d)).
    destruct (peer_of w (dict_get "to" d)); unfold emit, with_db; cbn;
      rewrite <- ?app_assoc; reflexivity.
  - rewrite Hacc. rewrite dispatch_live by assumption.
    change (peer_of (with_db _ w) (dict_get "to" d))
      with (peer_of w (dict_get "to" d)).
    destruct (peer_of w (dict_get "to" d)); unfold emit, with_db; cbn;
      rewrite <- ?app_assoc, ?app_nil_r; reflexivity.
Qed.

(** The same frame when the registry holds, for its recipient, a socket
    whose handler has ended: the message is stored, the send raises, and
    the session ends before the echo. *)
Lemma turn_stale (w : World) (ws peer : WebSocket) (a : Z) (d : dict) (utcnow : Z) :
  store_accepts (db w) a d = true ->
  peer_of w (dict_get "to" d) = Some peer ->
  ended w peer = true ->
  let w' := turn a ws (Text (Some (JObj d)) utcnow) w in
  sessions w' = <[ws := Closed (Some a) (Crashed RuntimeError)]> (sessions w) /\
  active_connections w' = active_connections w /\
  messages (db w') = messages (db w) ++ [stored_message (db w) a d utcnow] /\
  wire w' = wire w.
Proof.
  intros Hacc Hpeer Hended. unfold turn. rewrite loop_body_dict.
  unfold store_accepts in Hacc.
  destruct (is_None (dict_get "conversation_id" d)) eqn:Hconv.
  - apply andb_prop in Hacc as [Hc Hm]. rewrite Hc. cbv zeta. rewrite Hm.
    erewrite dispatch_stale by (try exact Hpeer; exact Hended).
    cbn. auto.
  - rewrite Hacc. erewrite dispatch_stale by (try exact Hpeer; exact Hended).
    cbn. auto.
Qed.

Lemma step_receive (w : World) (ws : WebSocket) (a : Z) (what : inbound) :
  sessions w !! ws = Some (Active a) ->
  step w (Receive ws what) = turn a ws what w.
Proof. intros Hs. unfold step. rewrite Hs. reflexivity. Qed.

Lemma step_connect (w : World) (ws : WebSocket) (token : string) :
  sessions w !! ws = None ->
  step w (Connect ws token) = open ws token w.
Proof. intros Hs. unfold step. rewrite Hs. reflexivity. Qed.

(** The outcome of registration. *)
Lemma open_registers (w : World) (ws : WebSocket) (token : string) (uid : Z) :
  authenticates token uid ->
  open ws token w =
  {| active_connections := <[uid := ws]> (active_connections w);
     db := db w;
     sessions := <[ws := Active uid]> (sessions w);
     wire := wire w ++ [Accept ws] |}.
Proof.
  intros [Hpayload Hsub]. unfold open. rewrite Hpayload, Hsub. reflexivity.
Qed.

(** ** C1: unregistering is by identity, not by handle *)

(** C1 (as amended): when a session ends by disconnect, the entry of its
    identity is removed whichever handle is registered there.  So once
    Register(id, newHandle) has followed Register(id, oldHandle), the old
    session's Unregister leaves [id] without an entry; the entries of the
    other identities stay as they were. *)
Theorem unregister_ignores_handle
    (w : World) (oldHandle newHandle : WebSocket) (id : Z) :
  sessions w !! oldHandle = Some (Active id) ->
  active_connections w !! id = Some newHandle ->
  let w' := step w (Receive oldHandle ConnectionLost) in
  active_connections w' = delete id (active_connections w) /\
  active_connections w' !! id = None /\
  sessions w' !! oldHandle = Some (Closed (Some id) Disconnected).
Proof.
  intros Hs Hreg w'. subst w'. rewrite (step_receive _ _ _ _ Hs).
  unfold turn, loop_body, raise, with_session, with_connections. cbn.
  rewrite decide_True by (rewrite Hreg; eauto).
  rewrite lookup_delete_eq, lookup_insert_eq. auto.
Qed.

(** ** C7: a credential that fails verification *)

(** The loop body touches the store and the sockets only: the registry
    and the sessions are as before, tables and wire only grow. *)
Lemma loop_body_extends (a : Z) (ws : WebSocket) (what : inbound)
      (w w1 : World) (r : outcome unit) :
  loop_body a ws what w = (w1, r) ->
  active_connections w1 = active_connections w /\
  sessions w1 = sessions w /\
  (exists cs, conversations (db w1) = conversations (db w) ++ cs) /\
  (exists ms, messages (db w1) = messages (db w) ++ ms) /\
  (exists es, wire w1 = wire w ++ es).
Proof.
  unfold_handler.
  destruct what as [[obj |] now |]; [destruct obj | |]; cbn;
    try (intros [= <- <-]; repeat split; exists []; symmetry; apply app_nil_r).
  repeat (match goal with
          | |- context [if ?c then _ else _] => destruct c
          | |- context [match dict_get ?k ?d with _ => _ end] =>
              destruct (dict_get k d)
          | |- context [match active_connections ?w !! ?k with _ => _ end] =>
              destruct (active_connections w !! k)
          end; cbn);
    intros [= <- <-]; cbn; repeat split;
    rewrite <- ?app_assoc;
    solve [ eexists; reflexivity | exists []; symmetry; apply app_nil_r ].
Qed.

Lemma step_keeps_closed (w : World) (ev : event) (ws : WebSocket)
      (identity : option Z) (how : ending) :
  sessions w !! ws = Some (Closed identity how) ->
  sessions (step w ev) !! ws = Some (Closed identity how).
Proof.
  intros Hs. destruct ev as [ws' token | ws' what]; cbn.
  - destruct (sessions w !! ws') eqn:Hs'; [assumption |].
    assert (ws' <> ws) by congruence.
    unfold open. destruct (falsy _); [| destruct (PyInt.int _)]; cbn;
      rewrite lookup_insert_ne; assumption.
  - destruct (sessions w !! ws') as [[a | ? ?] |] eqn:Hs'; try assumption.
    assert (ws' <> ws) by congruence.
    unfold turn. destruct (loop_body a ws' what w) as [w1 r] eqn:Hbody.
    apply loop_body_extends in Hbody as (_ & Hsame & _).
    destruct r as [u | e]; [congruence |].
    destruct e; cbn; rewrite lookup_insert_ne, ?Hsame; assumption.
Qed.

Lemma run_keeps_closed (evs : list event) (w : World) (ws : WebSocket)
      (identity : option Z) (how : ending) :
  sessions w !! ws = Some (Closed identity how) ->
  sessions (run w evs) !! ws = Some (Closed identity how).
Proof.
  revert w. induction evs as [| ev evs IH]; intros w Hs; [exact Hs |].
  cbn. apply IH. apply step_keeps_closed. exact Hs.
Qed.

(** C7: a connection whose token does not decode to a payload is accepted
    and closed at once with code 1008; nothing is registered, nothing is
    stored, and the session is over for good: whatever happens next, it is
    never in its loop. *)
Theorem auth_failure_closes_1008 (w : World) (ws : WebSocket) (token : string) :
  sessions w !! ws = None ->
  falsy (decode_access_token token) = true ->
  let w' := step w (Connect ws token) in
  wire w' = wire w ++ [Accept ws; Close ws 1008] /\
  active_connections w' = active_connections w /\
  db w' = db w /\
  forall later : list event,
    sessions (run w' later) !! ws = Some (Closed None Rejected).
Proof.
  intros Hnew Hbad w'. subst w'. rewrite (step_connect _ _ _ Hnew).
  unfold open. rewrite Hbad. cbn. rewrite <- app_assoc. repeat split.
  intros later. apply run_keeps_closed. cbn. apply lookup_insert_eq.
Qed.

(** ** What a turn does when the store refuses a row or the recipient is
    not hashable *)

Lemma turn_refused (w : World) (ws : WebSocket) (a : Z) (d : dict) (utcnow : Z) :
  store_accepts (db w) a d = false ->
  let w' := turn a ws (Text (Some (JObj d)) utcnow) w in
  sessions w' = <[ws := Closed (Some a) (Crashed SQLAlchemyError)]> (sessions w) /\
  active_connections w' = active_connections w /\
  messages (db w') = messages (db w) /\
  wire w' = wire w.
Proof.
  intros Hacc. unfold_handler.
  destruct (is_None (dict_get "conversation_id" d)) eqn:Hconv; cbn.
  - destruct (accepts_conversation _ _ _) eqn:Hc; cbn in *.
    + rewrite Hacc. cbn. auto.
    + auto.
  - rewrite Hacc. cbn. auto.
Qed.

Lemma turn_unhashable (w : World) (ws : WebSocket) (a : Z) (d : dict) (utcnow : Z) :
  store_accepts (db w) a d = true ->
  hashable (dict_get "to" d) = false ->
  let w' := turn a ws (Text (Some (JObj d)) utcnow) w in
  sessions w' = <[ws := Closed (Some a) (Crashed TypeError)]> (sessions w) /\
  active_connections w' = active_connections w /\
  messages (db w') = messages (db w) ++ [stored_message (db w) a d utcnow] /\
  wire w' = wire w.
Proof.
  intros Hacc Hhash. unfold_handler.
  destruct (is_None (dict_get "conversation_id" d)) eqn:Hconv; rewrite ?Hconv; cbn.
  - apply andb_prop in Hacc as [Hc Hm]. rewrite Hc. cbn. rewrite Hm. cbn.
    destruct (dict_get "to" d); try discriminate; cbn; auto.
  - rewrite Hacc. cbn.
    destruct (dict_get "to" d); try discriminate; cbn; auto.
Qed.

(** ** Keys and the read path *)

Lemma next_id_above (ids : list Z) (x : Z) : x ∈ ids -> x < next_id ids.
Proof.
  unfold next_id. induction 1 as [x ids | x y ids _ IH]; cbn; lia.
Qed.

Lemma elem_of_insert_by_timestamp (m x : Message) (sorted : list Message) :
  x ∈ insert_by_timestamp m sorted <-> x = m \/ x ∈ sorted.
Proof.
  induction sorted as [| m' rest IH]; cbn.
  - rewrite elem_of_cons. reflexivity.
  - destruct (timestamp m <? timestamp m').
    + rewrite elem_of_cons. tauto.
    + rewrite !elem_of_cons, IH. tauto.
Qed.

Lemma elem_of_order_by_timestamp (x : Message) (ms : list Message) :
  x ∈ order_by_timestamp ms <-> x ∈ ms.
Proof.
  unfold order_by_timestamp.
  assert (forall acc, x ∈ fold_left (fun sorted m => insert_by_timestamp m sorted) ms acc
                      <-> x ∈ ms \/ x ∈ acc) as Hgen.
  { induction ms as [| m ms IH]; intros acc; cbn.
    - rewrite elem_of_nil. tauto.
    - rewrite IH, elem_of_insert_by_timestamp, elem_of_cons. tauto. }
  rewrite Hgen, elem_of_nil. tauto.
Qed.

(** Every stored message of conversation [cid] is in what
    GET /messages/[cid] returns. *)
Lemma get_messages_complete (cid : Z) (s : Store) (m : Message) :
  m ∈ messages s ->
  sql_integer (conversation_id m) = Some cid ->
  m ∈ get_messages cid s.
Proof.
  intros Hin Hcid. unfold get_messages.
  apply elem_of_order_by_timestamp, list_elem_of_In, filter_In.
  split; [apply list_elem_of_In, Hin |].
  unfold in_conversation. rewrite Hcid. apply Z.eqb_refl.
Qed.

(** ** C3: a frame without [conversation_id] *)

(** C3 (as amended): a frame without conversation_id makes the session
    create a conversation, never look one up: when the store accepts the
    row, the table gains exactly one row, with a key above every existing
    key, the sender as user_a and the recipient as user_b (the order of
    sending, not a canonical one), whatever rows the pair already has. *)
Theorem absent_ref_creates_conversation
    (w : World) (ws : WebSocket) (a : Z) (d : dict) (utcnow : Z) :
  sessions w !! ws = Some (Active a) ->
  dict_get "conversation_id" d = JNull ->
  accepts_conversation (db w) a (dict_get "to" d) = true ->
  let w' := step w (Receive ws (Text (Some (JObj d)) utcnow)) in
  let conv := new_conversation (db w) a d in
  conversations (db w') = conversations (db w) ++ [conv] /\
  user_a conv = a /\
  user_b conv = dict_get "to" d /\
  forall old, old ∈ conversations (db w) -> c_id old < c_id conv.
Proof.
  intros Hs Hconv Hc w' conv. subst w' conv.
  rewrite (step_receive _ _ _ _ Hs). repeat split.
  - unfold_handler. rewrite Hconv. cbn. rewrite Hc. cbn.
    repeat (match goal with
            | |- context [if ?c then _ else _] => destruct c
            | |- context [match dict_get ?k ?d with _ => _ end] =>
                destruct (dict_get k d)
            | |- context [match active_connections ?w !! ?k with _ => _ end] =>
                destruct (active_connections w !! k)
            end; cbn); reflexivity.
  - intros old Hold. cbn. apply next_id_above, list_elem_of_fmap.
    exists old. auto.
Qed.

(** ** C4: the recipient is connected *)


(** ** C5: the recipient is not connected *)

(** C5: when A's session receives a message for B and B has no entry in
    the registry, the message is stored and GET /messages returns it for
    its conversation, the only frame sent is the echo on A's handle, and
    A's session goes on. *)
Theorem offline_recipient_is_skipped
    (w : World) (hA : WebSocket) (a b : Z) (d : dict) (utcnow cid : Z) :
  sessions w !! hA = Some (Active a) ->
  dict_get "to" d = JInt b ->
  active_connections w !! b = None ->
  store_accepts (db w) a d = true ->
  conversation_ref (db w) d = JInt cid ->
  let w' := step w (Receive hA (Text (Some (JObj d)) utcnow)) in
  let msg := stored_message (db w) a d utcnow in
  messages (db w') = messages (db w) ++ [msg] /\
  msg ∈ get_messages cid (db w') /\
  wire w' = wire w ++ [SendText hA (outbound (db w) a d utcnow)] /\
  sessions w' !! hA = Some (Active a).
Proof.
  intros Hs Hto Hreg Hacc Hcid w' msg. subst w' msg.
  assert (hashable (dict_get "to" d) = true) as Hhash
    by (rewrite Hto; reflexivity).
  assert (recipient_live w (dict_get "to" d) = true) as Hlive
    by (unfold recipient_live; rewrite Hto; cbn; rewrite Hreg; reflexivity).
  rewrite (step_receive _ _ _ _ Hs), (turn_delivers _ _ _ _ _ Hs Hacc Hhash Hlive).
  split; [reflexivity |]. split; [| split].
  - apply get_messages_complete; cbn.
    + apply elem_of_app. right. apply list_elem_of_singleton. reflexivity.
    + rewrite Hcid. reflexivity.
  - cbn. rewrite Hto. cbn. rewrite Hreg. reflexivity.
  - exact Hs.
Qed.

(** ** C6: a frame without recipient or content *)


(** ** C10: a frame that names a conversation *)

(** C10: when the frame carries a conversation_id, the session looks at
    no conversation row: the message is stored under the id as given, with
    the session's user as sender, and the conversations table is left as it
    was, whether or not a conversation has that id and whoever its two
    users are.  What the store accepts is stored. *)
Theorem named_conversation_is_not_checked
    (w : World) (ws : WebSocket) (a : Z) (d : dict) (utcnow : Z) :
  sessions w !! ws = Some (Active a) ->
  is_None (dict_get "conversation_id" d) = false ->
  accepts_message (db w) (dict_get "conversation_id" d) a (dict_get "content" d)
  = true ->
  let w' := step w (Receive ws (Text (Some (JObj d)) utcnow)) in
  messages (db w') =
    messages (db w)
    ++ [{| m_id := next_id (m_id <$> messages (db w));
           conversation_id := dict_get "conversation_id" d;
           sender_id := a;
           content := dict_get "content" d;
           timestamp := utcnow |}] /\
  conversations (db w') = conversations (db w).
Proof.
  intros Hs Hconv Hm w'. subst w'. rewrite (step_receive _ _ _ _ Hs).
  unfold_handler. unfold ended. rewrite Hconv. cbn. rewrite Hm. cbn.
  repeat (match goal with
          | |- context [match dict_get ?k ?d with _ => _ end] =>
              destruct (dict_get k d)
          | |- context [match active_connections ?w !! ?k with _ => _ end] =>
              destruct (active_connections w !! k)
          | |- context [match sessions ?w !! ?k with _ => _ end] =>
              destruct (sessions w !! k) as [[? | ? ?] |]
          end; cbn); auto.
Qed.

(** ** Tables and wire only grow *)

Lemma step_extends (w : World) (ev : event) :
  (exists ms, messages (db (step w ev)) = messages (db w) ++ ms) /\
  (exists es, wire (step w ev) = wire w ++ es).
Proof.
  destruct ev as [ws token | ws what]; cbn.
  - destruct (sessions w !! ws).
    + split; exists []; symmetry; apply app_nil_r.
    + unfold open. destruct (falsy _); [| destruct (PyInt.int _)]; cbn;
        rewrite <- ?app_assoc;
        (split; [exists []; symmetry; apply app_nil_r | eexists; reflexivity]).
  - destruct (sessions w !! ws) as [[a | ? ?] |];
      try (split; exists []; symmetry; apply app_nil_r).
    unfold turn. destruct (loop_body a ws what w) as [w1 r] eqn:Hbody.
    apply loop_body_extends in Hbody as (_ & _ & _ & Hms & Hes).
    destruct r as [u | e]; [auto |]. destruct e; cbn; auto.
Qed.

Lemma run_extends (evs : list event) (w : World) :
  (exists ms, messages (db (run w evs)) = messages (db w) ++ ms) /\
  (exists es, wire (run w evs) = wire w ++ es).
Proof.
  revert w. induction evs as [| ev evs IH]; intros w.
  - split; exists []; symmetry; apply app_nil_r.
  - change (run w (ev :: evs)) with (run (step w ev) evs).
    destruct (IH (step w ev)) as [[ms Hms] [es Hes]].
    destruct (step_extends w ev) as [[ms0 Hms0] [es0 Hes0]].
    rewrite Hms, Hes, Hms0, Hes0, <- !app_assoc. eauto.
Qed.

(** ** C8: one entry per identity, the last login wins *)

(** C8: the registry never lists an identity twice, and a second login
    replaces the handle of the first: after the same user connects on c1
    and then on c2, the registry is the earlier one with that user mapped
    to c2, and a message addressed to that user goes to c2 and, as echo,
    to its sender's handle, to no other socket. *)
Theorem duplicate_login_last_wins
    (w : World) (c1 c2 : WebSocket) (t1 t2 : string) (uid : Z) :
  sessions w !! c1 = None ->
  sessions w !! c2 = None ->
  c1 <> c2 ->
  authenticates t1 uid ->
  authenticates t2 uid ->
  let w' := run w [Connect c1 t1; Connect c2 t2] in
  (forall any : World, NoDup (fst <$> map_to_list (active_connections any))) /\
  active_connections w' = <[uid := c2]> (active_connections w) /\
  active_connections w' !! uid = Some c2 /\
  forall (hA : WebSocket) (a : Z) (d : dict) (utcnow : Z),
    sessions w' !! hA = Some (Active a) ->
    dict_get "to" d = JInt uid ->
    store_accepts (db w') a d = true ->
    wire (step w' (Receive hA (Text (Some (JObj d)) utcnow))) =
    wire w' ++ [SendText c2 (outbound (db w') a d utcnow);
                SendText hA (outbound (db w') a d utcnow)].
Proof.
  intros Hc1 Hc2 Hne Ht1 Ht2 w'.
  assert (w' = {| active_connections := <[uid := c2]> (active_connections w);
                  db := db w;
                  sessions := <[c2 := Active uid]> (<[c1 := Active uid]> (sessions w));
                  wire := (wire w ++ [Accept c1]) ++ [Accept c2] |}) as Hw'.
  { subst w'.
    change (run w [Connect c1 t1; Connect c2 t2])
      with (step (step w (Connect c1 t1)) (Connect c2 t2)).
    rewrite (step_connect _ _ _ Hc1), (open_registers _ _ _ _ Ht1).
    rewrite step_connect by (cbn; rewrite lookup_insert_ne; auto).
    rewrite (open_registers _ _ _ _ Ht2). cbn. rewrite insert_insert_eq.
    reflexivity. }
  assert (active_connections w' = <[uid := c2]> (active_connections w)) as Hreg
    by (rewrite Hw'; reflexivity).
  assert (ended w' c2 = false) as Hc2live
    by (rewrite Hw'; unfold ended; cbn; rewrite lookup_insert_eq; reflexivity).
  clearbody w'. clear Hw'.
  split; [intros any; apply NoDup_fst_map_to_list |]. split; [exact Hreg |].
  split; [rewrite Hreg; apply lookup_insert_eq |].
  intros hA a d utcnow HhA Hto Hacc.
  assert (hashable (dict_get "to" d) = true) as Hhash
    by (rewrite Hto; reflexivity).
  assert (recipient_live w' (dict_get "to" d) = true) as Hlive
    by (unfold recipient_live; rewrite Hto; cbn;
        rewrite Hreg, lookup_insert_eq, Hc2live; reflexivity).
  rewrite (step_receive _ _ _ _ HhA),
    (turn_delivers _ _ _ _ _ HhA Hacc Hhash Hlive).
  cbn. rewrite Hto. cbn. rewrite Hreg, lookup_insert_eq. reflexivity.
Qed.

(** ** C9: one session's messages keep their order *)

(** C9: two messages received on the same connection, whatever happens
    in between, are stored in the order received (the first row lies before
    the second in the table and has the smaller key) and their frames are
    sent in that order (everything sent for the first, recipient then
    echo, lies before everything sent for the second).  A turn whose
    recipient has a registered socket with an ended handler sends
    nothing. *)
Theorem session_order_is_kept
    (w : World) (ws : WebSocket) (a : Z) (d1 d2 : dict) (t1 t2 : Z)
    (between_them : list event) :
  sessions w !! ws = Some (Active a) ->
  store_accepts (db w) a d1 = true ->
  hashable (dict_get "to" d1) = true ->
  let w1 := step w (Receive ws (Text (Some (JObj d1)) t1)) in
  let w2 := run w1 between_them in
  sessions w2 !! ws = Some (Active a) ->
  store_accepts (db w2) a d2 = true ->
  hashable (dict_get "to" d2) = true ->
  let w3 := step w2 (Receive ws (Text (Some (JObj d2)) t2)) in
  let m1 := stored_message (db w) a d1 t1 in
  let m2 := stored_message (db w2) a d2 t2 in
  let sent (at_ : World) (d : dict) (t : Z) :=
    if recipient_live at_ (dict_get "to" d) then
      match peer_of at_ (dict_get "to" d) with
      | Some peer => [SendText peer (outbound (db at_) a d t)]
      | None => []
      end ++ [SendText ws (outbound (db at_) a d t)]
    else [] in
  exists (ms : list Message) (es : list effect),
    messages (db w3) = messages (db w) ++ [m1] ++ ms ++ [m2] /\
    m_id m1 < m_id m2 /\
    wire w3 = wire w ++ sent w d1 t1 ++ es ++ sent w2 d2 t2.
Proof.
  intros Hs Hacc1 Hhash1 w1 w2 Hs2 Hacc2 Hhash2 w3 m1 m2 sent.
  destruct (run_extends between_them w1) as [[ms Hms] [es Hes]].
  fold w2 in Hms, Hes.
  assert (recipient_live w (dict_get "to" d1) = true) as Hlive1.
  { destruct (recipient_live w (dict_get "to" d1)) eqn:Hlive; [reflexivity |].
    exfalso. apply recipient_not_live in Hlive as (peer & Hpeer & Hended).
    destruct (turn_stale w ws peer a d1 t1 Hacc1 Hpeer Hended) as (Hcrash & _).
    assert (sessions w1 !! ws = Some (Closed (Some a) (Crashed RuntimeError)))
      as Hw1.
    { subst w1. rewrite (step_receive _ _ _ _ Hs), Hcrash.
      apply lookup_insert_eq. }
    apply (run_keeps_closed between_them) in Hw1. fold w2 in Hw1. congruence. }
  assert (messages (db w1) = messages (db w) ++ [m1] /\
          wire w1 = wire w ++ sent w d1 t1) as [Hm1 He1].
  { subst w1 sent. cbv beta. rewrite Hlive1. rewrite (step_receive _ _ _ _ Hs),
      (turn_delivers _ _ _ _ _ Hs Hacc1 Hhash1 Hlive1). cbn. auto. }
  assert (messages (db w3) = messages (db w2) ++ [m2] /\
          wire w3 = wire w2 ++ sent w2 d2 t2) as [Hm3 He3].
  { subst w3 sent. cbv beta. rewrite (step_receive _ _ _ _ Hs2).
    destruct (recipient_live w2 (dict_get "to" d2)) eqn:Hlive2.
    - rewrite (turn_delivers _ _ _ _ _ Hs2 Hacc2 Hhash2 Hlive2). cbn. auto.
    - apply recipient_not_live in Hlive2 as (peer & Hpeer & Hended).
      destruct (turn_stale w2 ws peer a d2 t2 Hacc2 Hpeer Hended)
        as (_ & _ & -> & ->).
      rewrite app_nil_r. auto. }
  exists ms, es. split; [| split].
  - rewrite Hm3, Hms, Hm1, <- !app_assoc. reflexivity.
  - subst m2. cbn. apply next_id_above. rewrite Hms, Hm1, !fmap_app. cbn.
    apply elem_of_app. left. apply elem_of_app. right.
    apply list_elem_of_singleton. reflexivity.
  - rewrite He3, Hes, He1, <- !app_assoc. reflexivity.
Qed.

(** ** C2: the registry and the sessions *)

Lemma text_never_disconnects (a : Z) (ws : WebSocket) (parsed : option json)
      (utcnow : Z) (w w1 : World) :
  loop_body a ws (Text parsed utcnow) w <> (w1, Raise WebSocketDisconnect).
Proof.
  unfold_handler.
  destruct parsed as [obj |]; [destruct obj |]; cbn; try congruence.
  repeat (match goal with
          | |- context [if ?c then _ else _] => destruct c
          | |- context [match dict_get ?k ?d with _ => _ end] =>
              destruct (dict_get k d)
          | |- context [match active_connections ?w !! ?k with _ => _ end] =>
              destruct (active_connections w !! k)
          end; cbn); congruence.
Qed.

Lemma step_lifecycle (w : World) (ev : event) : lifecycle w (step w ev) ev.
Proof.
  destruct ev as [ws token | ws what]; cbn.
  - destruct (sessions w !! ws) eqn:Hs; [apply Untouched; reflexivity |].
    unfold open. destruct (falsy (decode_access_token token)) eqn:Hpayload.
    + eapply Refused; [reflexivity | exact Hs | reflexivity | reflexivity].
    + destruct (PyInt.int _) as [uid | e] eqn:Hsub.
      * eapply Registered;
          [reflexivity | exact Hs | split; eassumption | reflexivity ..].
      * eapply Refused; [reflexivity | exact Hs | reflexivity | reflexivity].
  - destruct (sessions w !! ws) as [[a | ? ?] |] eqn:Hs;
      try (apply Untouched; reflexivity).
    unfold turn. destruct (loop_body a ws what w) as [w1 r] eqn:Hbody.
    pose proof Hbody as Hkeeps.
    apply loop_body_extends in Hkeeps as (Hreg & Hsess & _).
    destruct r as [u | e]; [apply Untouched; assumption |].
    destruct e;
      try (eapply Failed; [reflexivity | exact Hs
                          | cbn; rewrite Hsess; reflexivity
                          | cbn; assumption]).
    destruct what as [parsed utcnow |];
      [exfalso; exact (text_never_disconnects _ _ _ _ _ _ Hbody) |].
    eapply Unregistered;
      [reflexivity | exact Hs | cbn; rewrite Hsess; reflexivity |].
    cbn. rewrite Hreg. case_decide as Hin; [reflexivity |].
    symmetry. apply delete_id. destruct (active_connections w !! a) eqn:E;
      [exfalso; apply Hin; eauto | reflexivity].
Qed.

Lemma registry_sound_step (w : World) (ev : event) :
  registry_sound w -> registry_sound (step w ev).
Proof.
  intros Hinv uid ws. destruct (step_lifecycle w ev)
    as [Hs Hr | ws0 token u0 _ Hnew _ Hs Hr | ws0 token how _ Hnew Hs Hr
        | ws0 u0 _ Hact Hs Hr | ws0 u0 what e _ Hact Hs Hr];
    rewrite Hs, Hr; clear Hs Hr.
  - apply Hinv.
  - destruct (decide (u0 = uid)) as [-> | Hne].
    + rewrite lookup_insert_eq. intros [= <-]. rewrite lookup_insert_eq. eauto.
    + rewrite lookup_insert_ne by assumption. intros Hreg.
      destruct (Hinv _ _ Hreg) as (s & Hs & Hid & Hend).
      rewrite lookup_insert_ne by congruence. eauto.
  - intros Hreg. destruct (Hinv _ _ Hreg) as (s & Hs & Hid & Hend).
    rewrite lookup_insert_ne by congruence. eauto.
  - destruct (decide (u0 = uid)) as [-> | Hne].
    + rewrite lookup_delete_eq. discriminate.
    + rewrite lookup_delete_ne by assumption. intros Hreg.
      destruct (Hinv _ _ Hreg) as (s & Hs & Hid & Hend).
      rewrite lookup_insert_ne; [eauto |].
      intros ->. rewrite Hact in Hs. injection Hs as <-. cbn in Hid. congruence.
  - intros Hreg. destruct (Hinv _ _ Hreg) as (s & Hs & Hid & Hend).
    destruct (decide (ws0 = ws)) as [-> | Hne].
    + rewrite lookup_insert_eq. rewrite Hact in Hs. injection Hs as <-.
      cbn in Hid. eauto.
    + rewrite lookup_insert_ne by assumption. eauto.
Qed.

Lemma sole_session_registered_step (w : World) (ev : event) :
  sole_session_registered w -> sole_session_registered (step w ev).
Proof.
  intros Hinv uid ws. destruct (step_lifecycle w ev)
    as [Hs Hr | ws0 token u0 _ Hnew _ Hs Hr | ws0 token how _ Hnew Hs Hr
        | ws0 u0 _ Hact Hs Hr | ws0 u0 what e _ Hact Hs Hr];
    rewrite Hs, Hr; clear Hs Hr.
  - apply Hinv.
  - intros Hws Hsole. destruct (decide (ws0 = ws)) as [-> | Hne].
    + rewrite lookup_insert_eq in Hws. injection Hws as ->.
      apply lookup_insert_eq.
    + rewrite lookup_insert_ne in Hws by assumption.
      assert (u0 <> uid) as Hu.
      { intros ->. apply Hne. apply (Hsole ws0 (Active uid)); [| reflexivity].
        apply lookup_insert_eq. }
      rewrite lookup_insert_ne by assumption. apply Hinv; [assumption |].
      intros ws' s' Hs' Hid. apply (Hsole ws' s'); [| assumption].
      rewrite lookup_insert_ne by congruence. assumption.
  - intros Hws Hsole. destruct (decide (ws0 = ws)) as [-> | Hne].
    + rewrite lookup_insert_eq in Hws. discriminate.
    + rewrite lookup_insert_ne in Hws by assumption.
      apply Hinv; [assumption |].
      intros ws' s' Hs' Hid. apply (Hsole ws' s'); [| assumption].
      rewrite lookup_insert_ne by congruence. assumption.
  - intros Hws Hsole. destruct (decide (ws0 = ws)) as [-> | Hne].
    + rewrite lookup_insert_eq in Hws. discriminate.
    + rewrite lookup_insert_ne in Hws by assumption.
      assert (u0 <> uid) as Hu.
      { intros ->. apply Hne.
        apply (Hsole ws0 (Closed (Some uid) Disconnected)); [| reflexivity].
        apply lookup_insert_eq. }
      rewrite lookup_delete_ne by assumption. apply Hinv; [assumption |].
      intros ws' s' Hs' Hid. destruct (decide (ws0 = ws')) as [-> | Hne'].
      * rewrite Hact in Hs'. injection Hs' as <-. cbn in Hid. congruence.
      * apply (Hsole ws' s'); [| assumption].
        rewrite lookup_insert_ne by assumption. assumption.
  - intros Hws Hsole. destruct (decide (ws0 = ws)) as [-> | Hne].
    + rewrite lookup_insert_eq in Hws. discriminate.
    + rewrite lookup_insert_ne in Hws by assumption.
      apply Hinv; [assumption |].
      intros ws' s' Hs' Hid. destruct (decide (ws0 = ws')) as [-> | Hne'].
      * rewrite Hact in Hs'. injection Hs' as <-. cbn in Hid.
        apply (Hsole ws' (Closed (Some u0) (Crashed e))); [| assumption].
        apply lookup_insert_eq.
      * apply (Hsole ws' s'); [| assumption].
        rewrite lookup_insert_ne by assumption. assumption.
Qed.

Lemma run_snoc (w : World) (evs : list event) (ev : event) :
  run w (evs ++ [ev]) = step (run w evs) ev.
Proof. unfold run. rewrite fold_left_app. reflexivity. Qed.

Lemma reachable_invariants (evs : list event) :
  registry_sound (run boot evs) /\ sole_session_registered (run boot evs).
Proof.
  induction evs as [| ev evs [IH1 IH2]] using rev_ind.
  - split.
    + intros uid ws Hreg. cbn in Hreg. rewrite lookup_empty in Hreg. discriminate.
    + intros uid ws Hs. cbn in Hs. rewrite lookup_empty in Hs. discriminate.
  - rewrite run_snoc. split.
    + apply registry_sound_step, IH1.
    + apply sole_session_registered_step, IH2.
Qed.

Lemma run_app (w : World) (evs evs' : list event) :
  run w (evs ++ evs') = run (run w evs) evs'.
Proof. unfold run. apply fold_left_app. Qed.

Lemma never_snoc (what : World -> event -> Prop) (w : World)
      (evs : list event) (ev : event) :
  never what w (evs ++ [ev]) <-> never what w evs /\ ~ what (run w evs) ev.
Proof.
  revert w. induction evs as [| e evs IH]; intros w; cbn.
  - tauto.
  - change (fold_left step evs (step w e)) with (run (step w e) evs).
    rewrite IH. tauto.
Qed.

Lemma login_registers (uid : Z) (w : World) (ws : WebSocket) (token : string) :
  sessions w !! ws = None ->
  authenticates token uid ->
  active_connections (step w (Connect ws token)) !! uid = Some ws.
Proof.
  intros Hnew Hauth.
  rewrite (step_connect _ _ _ Hnew), (open_registers _ _ _ _ Hauth). cbn.
  apply lookup_insert_eq.
Qed.

Lemma disconnect_unregisters (uid : Z) (w : World) (ev : event) :
  disconnects uid w ev -> active_connections (step w ev) !! uid = None.
Proof.
  intros (ws & -> & Hact). rewrite (step_receive _ _ _ _ Hact).
  unfold turn, loop_body, raise, with_session, with_connections. cbn.
  case_decide as Hin; [apply lookup_delete_eq |].
  destruct (active_connections w !! uid) eqn:E;
    [exfalso; apply Hin; eauto | reflexivity].
Qed.

(** An event that is neither a login as [uid] nor the disconnect of one of
    its sessions leaves the entry of [uid] as it is. *)
Lemma quiet_step (uid : Z) (w : World) (ev : event) :
  ~ logs_in uid w ev ->
  ~ disconnects uid w ev ->
  active_connections (step w ev) !! uid = active_connections w !! uid.
Proof.
  intros Hlogin Hgone. destruct (step_lifecycle w ev)
    as [Hs Hr | ws0 token u0 Hev Hnew Hauth Hs Hr | ws0 token how _ Hnew Hs Hr
        | ws0 u0 Hev Hact Hs Hr | ws0 u0 what e _ Hact Hs Hr];
    rewrite Hr; clear Hs Hr; try reflexivity.
  - apply lookup_insert_ne. intros ->. apply Hlogin. exists ws0, token. auto.
  - apply lookup_delete_ne. intros ->. apply Hgone. exists ws0. auto.
Qed.

(** Without a disconnect of one of its sessions, an identity that is in the
    registry stays in it. *)
Lemma calm_step (uid : Z) (w : World) (ev : event) :
  is_Some (active_connections w !! uid) ->
  ~ disconnects uid w ev ->
  is_Some (active_connections (step w ev) !! uid).
Proof.
  intros Hin Hgone. destruct (step_lifecycle w ev)
    as [Hs Hr | ws0 token u0 Hev Hnew Hauth Hs Hr | ws0 token how _ Hnew Hs Hr
        | ws0 u0 Hev Hact Hs Hr | ws0 u0 what e _ Hact Hs Hr];
    rewrite Hr; clear Hs Hr; try exact Hin.
  - destruct (decide (u0 = uid)) as [-> | Hne].
    + rewrite lookup_insert_eq. eauto.
    + rewrite lookup_insert_ne by assumption. exact Hin.
  - rewrite lookup_delete_ne; [exact Hin |].
    intros ->. apply Hgone. exists ws0. auto.
Qed.

Lemma calm_run (uid : Z) (evs : list event) (w : World) :
  is_Some (active_connections w !! uid) ->
  never (disconnects uid) w evs ->
  is_Some (active_connections (run w evs) !! uid).
Proof.
  revert w. induction evs as [| ev evs IH]; intros w Hin; cbn; [auto |].
  intros [Hgone Hrest]. apply IH; [| exact Hrest].
  apply calm_step; assumption.
Qed.

Lemma quiet_run (uid : Z) (evs : list event) (w : World) :
  never (disconnects uid) w evs ->
  never (logs_in uid) w evs ->
  active_connections (run w evs) !! uid = active_connections w !! uid.
Proof.
  revert w. induction evs as [| ev evs IH]; intros w; cbn; [reflexivity |].
  intros [Hgone Hrest] [Hlogin Hrest'].
  change (fold_left step evs (step w ev)) with (run (step w ev) evs).
  rewrite IH by assumption. apply quiet_step; assumption.
Qed.

(** An identity is in the registry only if somebody logged in as it and no
    session of it has disconnected since. *)
Lemma present_since_login (uid : Z) (evs : list event) :
  is_Some (active_connections (run boot evs) !! uid) ->
  exists before ws token after,
    evs = before ++ Connect ws token :: after /\
    sessions (run boot before) !! ws = None /\
    authenticates token uid /\
    never (disconnects uid) (run boot (before ++ [Connect ws token])) after.
Proof.
  induction evs as [| ev evs IH] using rev_ind.
  - cbn. rewrite lookup_empty. intros [? ?]. discriminate.
  - rewrite run_snoc. intros Hin.
    assert (~ disconnects uid (run boot evs) ev) as Hgone.
    { intros Hd. rewrite (disconnect_unregisters _ _ _ Hd) in Hin.
      destruct Hin. discriminate. }
    assert ((exists ws token, ev = Connect ws token /\
                              sessions (run boot evs) !! ws = None /\
                              authenticates token uid) \/
            is_Some (active_connections (run boot evs) !! uid)) as [Hnow | Hold].
    { destruct (step_lifecycle (run boot evs) ev)
        as [Hs Hr | ws0 token u0 Hev Hnew Hauth Hs Hr | ws0 token how _ Hnew Hs Hr
            | ws0 u0 Hev Hact Hs Hr | ws0 u0 what e _ Hact Hs Hr];
        rewrite Hr in Hin; clear Hs Hr; auto.
      - destruct (decide (u0 = uid)) as [-> | Hne]; [left; eauto |].
        rewrite lookup_insert_ne in Hin by assumption. auto.
      - destruct (decide (u0 = uid)) as [-> | Hne].
        + rewrite lookup_delete_eq in Hin. destruct Hin. discriminate.
        + rewrite lookup_delete_ne in Hin by assumption. auto. }
    + destruct Hnow as (ws & token & -> & Hnew & Hauth).
      exists evs, ws, token, [].
      split; [reflexivity |]. split; [exact Hnew |]. split; [exact Hauth |].
      exact I.
    + destruct (IH Hold) as (before & ws & token & after & -> & Hnew & Hauth & Hcalm).
      exists before, ws, token, (after ++ [ev]).
      split; [rewrite <- app_assoc; reflexivity |].
      split; [exact Hnew |]. split; [exact Hauth |].
      apply never_snoc. split; [exact Hcalm |].
      rewrite <- run_app, <- app_assoc. exact Hgone.
Qed.

(** A session in its loop was opened by a login of the trace, on a socket
    not seen before. *)
Lemma active_since_login (uid : Z) (ws : WebSocket) (evs : list event) :
  sessions (run boot evs) !! ws = Some (Active uid) ->
  exists before token after,
    evs = before ++ Connect ws token :: after /\
    sessions (run boot before) !! ws = None /\
    authenticates token uid.
Proof.
  induction evs as [| ev evs IH] using rev_ind.
  - cbn. rewrite lookup_empty. discriminate.
  - rewrite run_snoc. intros Hact.
    assert (sessions (run boot evs) !! ws = Some (Active uid) ->
            exists before token after,
              evs ++ [ev] = before ++ Connect ws token :: after /\
              sessions (run boot before) !! ws = None /\
              authenticates token uid) as Hearlier.
    { intros Hold.
      destruct (IH Hold) as (before & token & after & -> & Hnew & Hauth).
      exists before, token, (after ++ [ev]).
      split; [rewrite <- app_assoc; reflexivity | auto]. }
    destruct (step_lifecycle (run boot evs) ev)
      as [Hs Hr | ws0 token u0 Hev Hnew Hauth Hs Hr | ws0 token how _ Hnew Hs Hr
          | ws0 u0 Hev Hact0 Hs Hr | ws0 u0 what e _ Hact0 Hs Hr];
      rewrite Hs in Hact; clear Hs Hr; [auto | | | |];
      (destruct (decide (ws0 = ws)) as [-> | Hne];
       [rewrite lookup_insert_eq in Hact
       | rewrite lookup_insert_ne in Hact by assumption; auto]);
      try discriminate.
    injection Hact as ->. subst ev. exists evs, token, [].
    split; [reflexivity | auto].
Qed.

(** C2 (as amended): at every point of an execution, an identity is in the
    registry if and only if a connection has authenticated as it and no
    session of it has ended by disconnect since; it is mapped to the socket
    of a session that ran under it and has not ended by disconnect, and as
    long as nobody has logged in as that identity since, to the socket of
    that login.  So a session in its loop is the registered one for its
    identity unless, since its login, somebody logged in as the same
    identity or a session of that identity disconnected (every session in
    its loop was opened by such a login).  An entry for
    (identity, socket) appears only when a new connection authenticates as
    that identity, and always then (a second login replaces the handle and
    leaves the other sessions as they are); a session that ends by
    disconnect leaves its identity without entry. *)
Theorem registry_follows_sessions (evs : list event) :
  let w := run boot evs in
  registry_sound w /\
  sole_session_registered w /\
  (forall uid : Z,
      is_Some (active_connections w !! uid) <->
      exists before ws token after,
        evs = before ++ Connect ws token :: after /\
        sessions (run boot before) !! ws = None /\
        authenticates token uid /\
        never (disconnects uid) (run boot (before ++ [Connect ws token])) after) /\
  (forall (before after : list event) (ws : WebSocket) (token : string) (uid : Z),
      evs = before ++ Connect ws token :: after ->
      sessions (run boot before) !! ws = None ->
      authenticates token uid ->
      never (disconnects uid) (run boot (before ++ [Connect ws token])) after ->
      never (logs_in uid) (run boot (before ++ [Connect ws token])) after ->
      active_connections w !! uid = Some ws) /\
  (forall (ws : WebSocket) (uid : Z),
      sessions w !! ws = Some (Active uid) ->
      exists before token after,
        evs = before ++ Connect ws token :: after /\
        sessions (run boot before) !! ws = None /\
        authenticates token uid /\
        (never (disconnects uid) (run boot (before ++ [Connect ws token])) after ->
         never (logs_in uid) (run boot (before ++ [Connect ws token])) after ->
         active_connections w !! uid = Some ws)) /\
  (forall (ev : event) (uid : Z) (ws : WebSocket),
      active_connections (step w ev) !! uid = Some ws ->
      active_connections w !! uid <> Some ws ->
      exists token, ev = Connect ws token /\
                    sessions w !! ws = None /\
                    authenticates token uid) /\
  (forall (ws : WebSocket) (token : string) (uid : Z),
      sessions w !! ws = None ->
      authenticates token uid ->
      active_connections (step w (Connect ws token)) !! uid = Some ws /\
      sessions (step w (Connect ws token)) !! ws = Some (Active uid) /\
      forall other, other <> ws ->
        sessions (step w (Connect ws token)) !! other = sessions w !! other) /\
  (forall (ws : WebSocket) (uid : Z),
      sessions w !! ws = Some (Active uid) ->
      active_connections (step w (Receive ws ConnectionLost)) !! uid = None /\
      sessions (step w (Receive ws ConnectionLost)) !! ws
      = Some (Closed (Some uid) Disconnected)).
Proof.
  intros w. destruct (reachable_invariants evs) as [Hsound Hsole].
  split; [exact Hsound |]. split; [exact Hsole |].
  assert (forall (before after : list event) (ws : WebSocket) (token : string)
                 (uid : Z),
             evs = before ++ Connect ws token :: after ->
             sessions (run boot before) !! ws = None ->
             authenticates token uid ->
             w = run (run boot (before ++ [Connect ws token])) after /\
             active_connections (run boot (before ++ [Connect ws token])) !! uid
             = Some ws) as Hsplit.
  { intros before after ws token uid -> Hnew Hauth. split.
    - subst w. rewrite <- run_app, <- app_assoc. reflexivity.
    - rewrite run_snoc. apply login_registers; assumption. }
  split; [| split; [| split; [| split; [| split]]]].
  - intros uid. split; [apply present_since_login |].
    intros (before & ws & token & after & Hevs & Hnew & Hauth & Hcalm).
    destruct (Hsplit _ _ _ _ _ Hevs Hnew Hauth) as [-> Hreg].
    apply calm_run; [rewrite Hreg; eauto | exact Hcalm].
  - intros before after ws token uid Hevs Hnew Hauth Hcalm Hquiet.
    destruct (Hsplit _ _ _ _ _ Hevs Hnew Hauth) as [-> Hreg].
    rewrite quiet_run by assumption. exact Hreg.
  - intros ws uid Hact.
    destruct (active_since_login uid ws evs Hact)
      as (before & token & after & Hevs & Hnew & Hauth).
    exists before, token, after.
    split; [exact Hevs |]. split; [exact Hnew |]. split; [exact Hauth |].
    intros Hcalm Hquiet.
    destruct (Hsplit _ _ _ _ _ Hevs Hnew Hauth) as [Hw Hreg].
    rewrite Hw, quiet_run by assumption. exact Hreg.
  - intros ev uid ws. destruct (step_lifecycle w ev)
      as [Hs Hr | ws0 token u0 -> Hnew Hauth Hs Hr | ws0 token how _ Hnew Hs Hr
          | ws0 u0 _ Hact Hs Hr | ws0 u0 what e _ Hact Hs Hr];
      rewrite Hr; clear Hs Hr; try congruence.
    + destruct (decide (u0 = uid)) as [-> | Hne].
      * rewrite lookup_insert_eq. intros [= <-] _. eauto.
      * rewrite lookup_insert_ne by assumption. congruence.
    + destruct (decide (u0 = uid)) as [-> | Hne].
      * rewrite lookup_delete_eq. discriminate.
      * rewrite lookup_delete_ne by assumption. congruence.
  - intros ws token uid Hnew Hauth.
    rewrite (step_connect _ _ _ Hnew), (open_registers _ _ _ _ Hauth). cbn.
    rewrite !lookup_insert_eq. repeat split.
    intros other Hother. apply lookup_insert_ne. congruence.
  - intros ws uid Hact. rewrite (step_receive _ _ _ _ Hact).
    unfold turn, loop_body, raise, with_session, with_connections. cbn.
    rewrite lookup_insert_eq. split; [| reflexivity].
    case_decide as Hin; [apply lookup_delete_eq |].
    destruct (active_connections w !! uid) eqn:E;
      [exfalso; apply Hin; eauto | reflexivity].
Qed.

End Properties.

(** * The model at work: concrete runs

    All of them with the collaborators of [Sample]: alice is user 1, bob
    user 2, eve user 5; sockets are numbered in the order they connect. *)

Example alice_and_bob_registry :
  active_connections Sample.alice_and_bob = {[1 := 1%nat; 2 := 2%nat]}.
Proof. reflexivity. Qed.

(** A session that ends by an exception other than the disconnect is over,
    and its entry is still there. *)
Example garbage_text_ends_session :
  let w := Sample.run boot [Connect 1 "alice"; Receive 1 (Text None 0)] in
  sessions w !! 1%nat = Some (Closed (Some 1) (Crashed JSONDecodeError)) /\
  active_connections w !! 1 = Some 1%nat.
Proof. split; reflexivity. Qed.

(** With NOT NULL on [content], a frame without content ends the session
    after the conversation row is committed. *)
Example no_content_ends_session :
  let w := Sample.step Sample.alice_and_bob (Sample.text 2 Sample.no_content 100) in
  sessions w !! 2%nat = Some (Closed (Some 2) (Crashed SQLAlchemyError)) /\
  conversations (db w) = [{| c_id := 1; user_a := 2; user_b := JInt 1 |}] /\
  messages (db w) = [] /\
  wire w = wire Sample.alice_and_bob.
Proof. repeat split. Qed.

(** ** C1 *)

(** C1, as stated, fails: eve (user 5) logs in on socket 1, then on
    socket 2; the registry maps 5 to socket 2.  Socket 1 disconnects: the
    registry no longer maps 5 to socket 2, it has no entry for 5, while the
    session on socket 2 is still in its loop. *)
Lemma stale_unregister_evicts_new_handle :
  active_connections Sample.eve_twice !! 5 = Some 2%nat /\
  sessions Sample.eve_twice !! 1%nat = Some (Active 5) /\
  active_connections (Sample.step Sample.eve_twice (Receive 1 ConnectionLost)) !! 5
  <> Some 2%nat /\
  active_connections (Sample.step Sample.eve_twice (Receive 1 ConnectionLost)) = ∅.
Proof. repeat split; try reflexivity. vm_compute. discriminate. Qed.

Lemma unregister_ignores_handle_witness :
  (sessions Sample.eve_twice !! 1%nat = Some (Active 5) /\
   active_connections Sample.eve_twice !! 5 = Some 2%nat) /\
  (active_connections (Sample.step Sample.eve_twice (Receive 1 ConnectionLost))
   = delete 5 (active_connections Sample.eve_twice) /\
   active_connections (Sample.step Sample.eve_twice (Receive 1 ConnectionLost)) !! 5
   = None /\
   sessions (Sample.step Sample.eve_twice (Receive 1 ConnectionLost)) !! 1%nat
   = Some (Closed (Some 5) Disconnected)).
Proof.
  assert (sessions Sample.eve_twice !! 1%nat = Some (Active 5)) as H1
    by (vm_compute; reflexivity).
  assert (active_connections Sample.eve_twice !! 5 = Some 2%nat) as H2
    by (vm_compute; reflexivity).
  split; [split; assumption |].
  exact (@unregister_ignores_handle Sample.env Sample.eve_twice 1%nat 2%nat 5 H1 H2).
Defined.

(** ** C2 *)

(** C2, as stated, fails: after eve's two logins and the disconnect of the
    first socket, a session for user 5 is in its loop (on socket 2) and user
    5 is not in the registry. *)
Lemma active_session_without_entry :
  loop_active Sample.eve_first_gone 5 /\
  active_connections Sample.eve_first_gone !! 5 = None /\
  ~ (is_Some (active_connections Sample.eve_first_gone !! 5)
     <-> loop_active Sample.eve_first_gone 5).
Proof.
  assert (loop_active Sample.eve_first_gone 5) as Hloop
    by (exists 2%nat; reflexivity).
  assert (active_connections Sample.eve_first_gone !! 5 = None) as Hreg
    by reflexivity.
  repeat split; try assumption.
  intros [_ Hback]. destruct (Hback Hloop) as [ws Hws].
  rewrite Hreg in Hws. discriminate.
Qed.

(** A disconnect followed by a new login: the identity is registered with
    the socket of the new login. *)
Lemma registry_follows_sessions_witness :
  active_connections (Sample.run boot Fixtures.eve_returns) !! 5 = Some 2%nat /\
  is_Some (active_connections (Sample.run boot Fixtures.eve_returns) !! 5).
Proof.
  pose proof (@registry_follows_sessions Sample.env Fixtures.eve_returns)
    as (_ & _ & Hpresent & Hlast & _).
  assert (sessions (Sample.run boot [Connect 1 "eve"; Receive 1 ConnectionLost])
            !! 2%nat = None) as Hnew by (vm_compute; reflexivity).
  assert (@authenticates Sample.env "eve" 5) as Hauth
    by (split; vm_compute; reflexivity).
  assert (@never Sample.env (disconnects 5)
            (Sample.run boot ([Connect 1 "eve"; Receive 1 ConnectionLost]
                              ++ [Connect 2 "eve"]))
            [Sample.text 2 Sample.hi 3]) as Hcalm
    by (split; [intros (ws & Heq & _); discriminate | exact I]).
  assert (@never Sample.env (@logs_in Sample.env 5)
            (Sample.run boot ([Connect 1 "eve"; Receive 1 ConnectionLost]
                              ++ [Connect 2 "eve"]))
            [Sample.text 2 Sample.hi 3]) as Hquiet
    by (split; [intros (ws & token & Heq & _); discriminate | exact I]).
  split.
  - exact (Hlast [Connect 1 "eve"; Receive 1 ConnectionLost]
             [Sample.text 2 Sample.hi 3] 2%nat "eve" 5 eq_refl Hnew Hauth
             Hcalm Hquiet).
  - apply Hpresent.
    exists [Connect 1 "eve"; Receive 1 ConnectionLost], 2%nat, "eve",
      [Sample.text 2 Sample.hi 3].
    split; [reflexivity |]. split; [exact Hnew |]. split; [exact Hauth |].
    exact Hcalm.
Defined.

(** ** C3 *)

(** C3, as stated, fails: alice writes to bob twice without naming a
    conversation and bob writes to alice once; the table then holds three
    conversations between users 1 and 2. *)
Lemma one_pair_three_conversations :
  conversations (db Sample.three_greetings) =
    [{| c_id := 1; user_a := 1; user_b := JInt 2 |};
     {| c_id := 2; user_a := 1; user_b := JInt 2 |};
     {| c_id := 3; user_a := 2; user_b := JInt 1 |}] /\
  List.length (List.filter (between 1 2) (conversations (db Sample.three_greetings)))
  = 3%nat.
Proof. split; reflexivity. Qed.

Lemma absent_ref_creates_conversation_witness :
  (sessions Sample.alice_wrote_bob !! 1%nat = Some (Active 1) /\
   dict_get "conversation_id" Sample.hi = JNull /\
   @accepts_conversation Sample.env (db Sample.alice_wrote_bob) 1
     (dict_get "to" Sample.hi) = true) /\
  conversations (db (Sample.step Sample.alice_wrote_bob (Sample.text 1 Sample.hi 101)))
  = conversations (db Sample.alice_wrote_bob)
    ++ [new_conversation (db Sample.alice_wrote_bob) 1 Sample.hi].
Proof.
  assert (sessions Sample.alice_wrote_bob !! 1%nat = Some (Active 1)) as H1
    by (vm_compute; reflexivity).
  assert (dict_get "conversation_id" Sample.hi = JNull) as H2
    by (vm_compute; reflexivity).
  assert (@accepts_conversation Sample.env (db Sample.alice_wrote_bob) 1
            (dict_get "to" Sample.hi) = true) as H3
    by (vm_compute; reflexivity).
  split; [repeat split; assumption |].
  exact (proj1 (@absent_ref_creates_conversation Sample.env
                  Sample.alice_wrote_bob 1%nat 1 Sample.hi 101 H1 H2 H3)).
Defined.

(** ** C4 *)


(** ** C5 *)

Lemma offline_recipient_is_skipped_witness :
  (sessions Sample.alice_alone !! 1%nat = Some (Active 1) /\
   dict_get "to" Sample.hi = JInt 2 /\
   active_connections Sample.alice_alone !! 2 = None /\
   @store_accepts Sample.env (db Sample.alice_alone) 1 Sample.hi = true /\
   conversation_ref (db Sample.alice_alone) Sample.hi = JInt 1) /\
  (stored_message (db Sample.alice_alone) 1 Sample.hi 100
     ∈ get_messages 1 (db (Sample.step Sample.alice_alone (Sample.text 1 Sample.hi 100))) /\
   wire (Sample.step Sample.alice_alone (Sample.text 1 Sample.hi 100)) =
   wire Sample.alice_alone
   ++ [SendText 1 {| f_conversation_id := JInt 1; f_sender_id := 1;
                     f_content := JStr "hi"; f_timestamp := 100 |}]).
Proof.
  assert (sessions Sample.alice_alone !! 1%nat = Some (Active 1)) as H1
    by (vm_compute; reflexivity).
  assert (dict_get "to" Sample.hi = JInt 2) as H2 by (vm_compute; reflexivity).
  assert (active_connections Sample.alice_alone !! 2 = None) as H3
    by (vm_compute; reflexivity).
  assert (@store_accepts Sample.env (db Sample.alice_alone) 1 Sample.hi = true)
    as H4 by (vm_compute; reflexivity).
  assert (conversation_ref (db Sample.alice_alone) Sample.hi = JInt 1) as H5
    by (vm_compute; reflexivity).
  split; [repeat split; assumption |].
  pose proof (@offline_recipient_is_skipped Sample.env Sample.alice_alone
                1%nat 1 2 Sample.hi 100 1 H1 H2 H3 H4 H5) as (_ & Hget & Hwire & _).
  split; [exact Hget | exact Hwire].
Defined.

(** ** C6 *)



(** ** C7 *)

Lemma auth_failure_closes_1008_witness :
  (sessions boot !! 1%nat = None /\
   falsy (@decode_access_token Sample.env "mallory") = true) /\
  (wire (Sample.step boot (Connect 1 "mallory")) = [Accept 1; Close 1 1008] /\
   active_connections (Sample.step boot (Connect 1 "mallory")) = ∅ /\
   sessions (Sample.run (Sample.step boot (Connect 1 "mallory"))
               [Connect 1 "alice"; Sample.text 1 Sample.hi 100]) !! 1%nat
   = Some (Closed None Rejected)).
Proof.
  assert (sessions boot !! 1%nat = None) as H1 by (vm_compute; reflexivity).
  assert (falsy (@decode_access_token Sample.env "mallory") = true) as H2
    by (vm_compute; reflexivity).
  split; [split; assumption |].
  pose proof (@auth_failure_closes_1008 Sample.env boot 1%nat "mallory" H1 H2)
    as (Hwire & Hreg & _ & Hlater).
  split; [exact Hwire |]. split; [exact Hreg |].
  exact (Hlater [Connect 1 "alice"; Sample.text 1 Sample.hi 100]).
Defined.

(** ** C8 *)

Lemma duplicate_login_last_wins_witness :
  (sessions boot !! 1%nat = None /\
   sessions boot !! 2%nat = None /\
   1%nat <> 2%nat /\
   @authenticates Sample.env "eve" 5) /\
  (active_connections (Sample.run boot [Connect 1 "eve"; Connect 2 "eve"])
   = {[5 := 2%nat]} /\
   wire (Sample.step (Sample.run boot [Connect 1 "eve"; Connect 2 "eve"])
           (Sample.text 1 [("to", JInt 5); ("content", JStr "me")] 7)) =
   [Accept 1; Accept 2;
    SendText 2 {| f_conversation_id := JInt 1; f_sender_id := 5;
                  f_content := JStr "me"; f_timestamp := 7 |};
    SendText 1 {| f_conversation_id := JInt 1; f_sender_id := 5;
                  f_content := JStr "me"; f_timestamp := 7 |}]).
Proof.
  assert (sessions boot !! 1%nat = None) as H1 by (vm_compute; reflexivity).
  assert (sessions boot !! 2%nat = None) as H2 by (vm_compute; reflexivity).
  assert (1%nat <> 2%nat) as H3 by lia.
  assert (@authenticates Sample.env "eve" 5) as H4
    by (split; vm_compute; reflexivity).
  split; [repeat split; assumption |].
  pose proof (@duplicate_login_last_wins Sample.env boot 1%nat 2%nat "eve" "eve" 5
                H1 H2 H3 H4 H4) as (_ & Hreg & _ & Hsend).
  split; [exact Hreg |].
  apply (Hsend 1%nat 5 [("to", JInt 5); ("content", JStr "me")] 7);
    vm_compute; reflexivity.
Defined.

(** ** C9 *)

Lemma session_order_is_kept_witness :
  (sessions Sample.alice_and_bob !! 1%nat = Some (Active 1) /\
   @store_accepts Sample.env (db Sample.alice_and_bob) 1 Sample.hi = true /\
   hashable (dict_get "to" Sample.hi) = true) /\
  exists ms es,
    messages (db (Sample.run Sample.alice_and_bob
                    [Sample.text 1 Sample.hi 100;
                     Sample.text 2 Sample.hello_back 101;
                     Sample.text 1 Sample.again 102])) =
    [] ++ [{| m_id := 1; conversation_id := JInt 1; sender_id := 1;
              content := JStr "hi"; timestamp := 100 |}]
       ++ ms
       ++ [{| m_id := 3; conversation_id := JInt 3; sender_id := 1;
              content := JStr "again"; timestamp := 102 |}] /\
    wire (Sample.run Sample.alice_and_bob
            [Sample.text 1 Sample.hi 100;
             Sample.text 2 Sample.hello_back 101;
             Sample.text 1 Sample.again 102]) =
    wire Sample.alice_and_bob
    ++ [SendText 2 {| f_conversation_id := JInt 1; f_sender_id := 1;
                      f_content := JStr "hi"; f_timestamp := 100 |};
        SendText 1 {| f_conversation_id := JInt 1; f_sender_id := 1;
                      f_content := JStr "hi"; f_timestamp := 100 |}]
    ++ es
    ++ [SendText 2 {| f_conversation_id := JInt 3; f_sender_id := 1;
                      f_content := JStr "again"; f_timestamp := 102 |};
        SendText 1 {| f_conversation_id := JInt 3; f_sender_id := 1;
                      f_content := JStr "again"; f_timestamp := 102 |}].
Proof.
  assert (sessions Sample.alice_and_bob !! 1%nat = Some (Active 1)) as H1
    by (vm_compute; reflexivity).
  assert (@store_accepts Sample.env (db Sample.alice_and_bob) 1 Sample.hi = true)
    as H2 by (vm_compute; reflexivity).
  assert (hashable (dict_get "to" Sample.hi) = true) as H3
    by (vm_compute; reflexivity).
  split; [repeat split; assumption |].
  destruct (@session_order_is_kept Sample.env Sample.alice_and_bob 1%nat 1
              Sample.hi Sample.again 100 102
              [Sample.text 2 Sample.hello_back 101] H1 H2 H3)
    as (ms & es & Hms & _ & Hes); try (vm_compute; reflexivity).
  exists ms, es. split; [exact Hms | exact Hes].
Defined.

(** ** C10 *)

(** Conversation 1 is between alice (1) and bob (2); eve (5) names it and
    her message is stored in it. *)
Lemma named_conversation_is_not_checked_witness :
  (conversations (db Sample.alice_wrote_bob)
   = [{| c_id := 1; user_a := 1; user_b := JInt 2 |}] /\
   sessions Sample.alice_wrote_bob !! 3%nat = Some (Active 5) /\
   is_None (dict_get "conversation_id" Sample.into_conversation_1) = false /\
   @accepts_message Sample.env (db Sample.alice_wrote_bob)
     (dict_get "conversation_id" Sample.into_conversation_1) 5
     (dict_get "content" Sample.into_conversation_1) = true) /\
  messages (db (Sample.step Sample.alice_wrote_bob
                  (Sample.text 3 Sample.into_conversation_1 200))) =
  [{| m_id := 1; conversation_id := JInt 1; sender_id := 1;
      content := JStr "hi"; timestamp := 100 |};
   {| m_id := 2; conversation_id := JInt 1; sender_id := 5;
      content := JStr "psst"; timestamp := 200 |}].
Proof.
  assert (sessions Sample.alice_wrote_bob !! 3%nat = Some (Active 5)) as H1
    by (vm_compute; reflexivity).
  assert (is_None (dict_get "conversation_id" Sample.into_conversation_1) = false)
    as H2 by (vm_compute; reflexivity).
  assert (@accepts_message Sample.env (db Sample.alice_wrote_bob)
            (dict_get "conversation_id" Sample.into_conversation_1) 5
            (dict_get "content" Sample.into_conversation_1) = true) as H3
    by (vm_compute; reflexivity).
  split; [repeat split; assumption |].
  exact (proj1 (@named_conversation_is_not_checked Sample.env
                  Sample.alice_wrote_bob 3%nat 5 Sample.into_conversation_1 200
                  H1 H2 H3)).
Defined.

(** * Beyond the relay: keys, texts and the other routes *)

(** ** [int(str(n))] *)

Lemma of_uint_acc_value (d : Decimal.uint) (acc : positive) :
  Z.pos (Pos.of_uint_acc d acc) = uint_value (Z.pos acc) d.
Proof.
  revert acc. induction d; intros acc; cbn [Pos.of_uint_acc uint_value];
    rewrite ?IHd; f_equal; lia.
Qed.

Lemma of_uint_value (d : Decimal.uint) :
  Z.of_N (Pos.of_uint d) = uint_value 0 d.
Proof.
  induction d; cbn [Pos.of_uint uint_value]; try exact IHd; try reflexivity;
    cbn [Z.of_N]; rewrite of_uint_acc_value; reflexivity.
Qed.

Lemma to_uint_value (p : positive) : uint_value 0 (Pos.to_uint p) = Z.pos p.
Proof.
  rewrite <- of_uint_value, DecimalPos.Unsigned.of_to. reflexivity.
Qed.

Lemma digits_cons (c : ascii) (k acc : Z) (after_digit : bool) (rest : list ascii) :
  PyInt.digit_of c = Some k ->
  PyInt.digits acc after_digit (c :: rest) = PyInt.digits (10 * acc + k) true rest.
Proof. intros Hc. cbn [PyInt.digits]. rewrite Hc. reflexivity. Qed.

Lemma digits_uint_chars (d : Decimal.uint) (acc : Z) :
  PyInt.digits acc true (uint_chars d) = Some (uint_value acc d).
Proof.
  revert acc. induction d; intros acc; [reflexivity | ..];
    unfold uint_chars;
    cbn [DecimalString.NilEmpty.string_of_uint list_ascii_of_string];
    fold (uint_chars d); erewrite digits_cons by (vm_compute; reflexivity);
    rewrite IHd; cbn [uint_value]; repeat f_equal; lia.
Qed.

Lemma digits_uint_chars_start (d : Decimal.uint) :
  d <> Decimal.Nil ->
  PyInt.digits 0 false (uint_chars d) = Some (uint_value 0 d).
Proof.
  destruct d; [congruence | ..]; intros _;
    unfold uint_chars;
    cbn [DecimalString.NilEmpty.string_of_uint list_ascii_of_string];
    fold (uint_chars d); erewrite digits_cons by (vm_compute; reflexivity);
    rewrite digits_uint_chars; reflexivity.
Qed.

Lemma uint_chars_no_space (d : Decimal.uint) :
  Forall (fun c => PyInt.is_space c = false) (uint_chars d).
Proof.
  induction d; unfold uint_chars in *; cbn; constructor; auto.
Qed.

Lemma lstrip_no_space (cs : list ascii) :
  Forall (fun c => PyInt.is_space c = false) cs -> PyInt.lstrip cs = cs.
Proof. destruct 1 as [| c cs Hc _]; cbn; [| rewrite Hc]; reflexivity. Qed.

Lemma strip_no_space (cs : list ascii) :
  Forall (fun c => PyInt.is_space c = false) cs -> PyInt.strip cs = cs.
Proof.
  intros H. unfold PyInt.strip. rewrite (lstrip_no_space _ H).
  rewrite lstrip_no_space by (apply Forall_rev; exact H).
  apply rev_involutive.
Qed.

Lemma of_str_to_uint (p : positive) :
  PyInt.of_str (DecimalString.NilEmpty.string_of_uint (Pos.to_uint p))
  = Some (Z.pos p).
Proof.
  pose proof (DecimalPos.Unsigned.to_uint_nonnil p) as Hnil.
  pose proof (to_uint_value p) as Hval.
  pose proof (digits_uint_chars_start _ Hnil) as Hdig.
  pose proof (uint_chars_no_space (Pos.to_uint p)) as Hsp.
  unfold PyInt.of_str. fold (uint_chars (Pos.to_uint p)).
  rewrite (strip_no_space _ Hsp). rewrite Hval in Hdig.
  destruct (Pos.to_uint p) eqn:E; [congruence | ..];
    unfold uint_chars in *; cbn -[PyInt.digits] in *; exact Hdig.
Qed.

Lemma of_str_str (n : Z) : PyInt.of_str (str n) = Some n.
Proof.
  unfold str. destruct n as [| p | p]; cbn [Z.to_int].
  - reflexivity.
  - cbn [DecimalString.NilZero.string_of_int].
    pose proof (DecimalPos.Unsigned.to_uint_nonnil p) as Hnil.
    assert (DecimalString.NilZero.string_of_uint (Pos.to_uint p)
            = DecimalString.NilEmpty.string_of_uint (Pos.to_uint p)) as ->
      by (destruct (Pos.to_uint p); [congruence | reflexivity ..]).
    apply of_str_to_uint.
  - cbn [DecimalString.NilZero.string_of_int].
    pose proof (DecimalPos.Unsigned.to_uint_nonnil p) as Hnil.
    assert (DecimalString.NilZero.string_of_uint (Pos.to_uint p)
            = DecimalString.NilEmpty.string_of_uint (Pos.to_uint p)) as ->
      by (destruct (Pos.to_uint p); [congruence | reflexivity ..]).
    pose proof (digits_uint_chars_start _ Hnil) as Hdig.
    rewrite to_uint_value in Hdig.
    pose proof (uint_chars_no_space (Pos.to_uint p)) as Hsp.
    unfold PyInt.of_str. cbn [list_ascii_of_string].
    fold (uint_chars (Pos.to_uint p)).
    rewrite strip_no_space
      by (constructor; [reflexivity | exact Hsp]).
    cbn -[PyInt.digits]. rewrite Hdig. reflexivity.
Qed.


(** ** The read path *)

Lemma insert_by_timestamp_perm (m : Message) (sorted : list Message) :
  insert_by_timestamp m sorted ≡ₚ m :: sorted.
Proof.
  induction sorted as [| m' rest IH]; cbn; [reflexivity |].
  destruct (timestamp m <? timestamp m'); [reflexivity |].
  rewrite IH. apply Permutation_swap.
Qed.

Lemma order_by_timestamp_perm (ms : list Message) :
  order_by_timestamp ms ≡ₚ ms.
Proof.
  unfold order_by_timestamp.
  assert (forall acc,
            fold_left (fun sorted m => insert_by_timestamp m sorted) ms acc
            ≡ₚ ms ++ acc) as Hgen.
  { induction ms as [| m ms IH]; intros acc; cbn; [reflexivity |].
    rewrite IH, insert_by_timestamp_perm. symmetry. apply Permutation_middle. }
  rewrite Hgen, app_nil_r. reflexivity.
Qed.

Lemma insert_by_timestamp_sorted (m : Message) (sorted : list Message) :
  StronglySorted by_timestamp sorted ->
  StronglySorted by_timestamp (insert_by_timestamp m sorted).
Proof.
  induction 1 as [| m' rest Hrest IH Hall]; cbn.
  - constructor; constructor.
  - destruct (timestamp m <? timestamp m') eqn:Hlt.
    + apply Z.ltb_lt in Hlt. constructor; [constructor; assumption |].
      constructor; [unfold by_timestamp; lia |].
      eapply Forall_impl; [exact Hall |]. unfold by_timestamp. intros; cbn in *. lia.
    + apply Z.ltb_ge in Hlt. constructor; [exact IH |].
      rewrite insert_by_timestamp_perm. constructor; assumption.
Qed.

Lemma order_by_timestamp_sorted (ms : list Message) :
  StronglySorted by_timestamp (order_by_timestamp ms).
Proof.
  unfold order_by_timestamp.
  assert (forall acc, StronglySorted by_timestamp acc ->
            StronglySorted by_timestamp
              (fold_left (fun sorted m => insert_by_timestamp m sorted) ms acc))
    as Hgen.
  { induction ms as [| m ms IH]; intros acc Hacc; cbn; [exact Hacc |].
    apply IH, insert_by_timestamp_sorted, Hacc. }
  apply Hgen. constructor.
Qed.

Lemma elem_of_get_messages (cid : Z) (s : Store) (m : Message) :
  m ∈ get_messages cid s <->
  m ∈ messages s /\ sql_integer (conversation_id m) = Some cid.
Proof.
  unfold get_messages.
  rewrite order_by_timestamp_perm, !list_elem_of_In, filter_In.
  unfold in_conversation. destruct (sql_integer (conversation_id m)) as [z |].
  - rewrite Z.eqb_eq. split; intros [? ?]; split; congruence.
  - split; intros [? ?]; discriminate.
Qed.

(** X2: GET /messages/{conversation_id} answers with the stored messages
    of that conversation, each exactly once, in the order of their
    timestamps whatever the order in which they were stored. *)
Theorem get_messages_sorted_selection (cid : Z) (s : Store) :
  StronglySorted by_timestamp (get_messages cid s) /\
  get_messages cid s ≡ₚ List.filter (in_conversation cid) (messages s) /\
  forall m, m ∈ get_messages cid s <->
            m ∈ messages s /\ sql_integer (conversation_id m) = Some cid.
Proof.
  split; [apply order_by_timestamp_sorted |].
  split; [apply order_by_timestamp_perm |].
  intros m. apply elem_of_get_messages.
Qed.

(** ** What the relay writes *)

Section Writes.

Context `{Env : Collaborators}.

(** One pass through the loop body adds at most one conversation and at
    most one message, each under the next key and the session's own user,
    and sends only frames that name that user as sender, to the session's
    own socket or to a registered one. *)
Lemma loop_body_writes (a : Z) (ws : WebSocket) (what : inbound)
      (w w1 : World) (r : outcome unit) :
  loop_body a ws what w = (w1, r) ->
  (conversations (db w1) = conversations (db w) \/
   exists b, conversations (db w1) =
             conversations (db w)
             ++ [{| c_id := next_id (c_id <$> conversations (db w));
                    user_a := a; user_b := b |}]) /\
  (messages (db w1) = messages (db w) \/
   exists c body t, messages (db w1) =
                    messages (db w)
                    ++ [{| m_id := next_id (m_id <$> messages (db w));
                           conversation_id := c; sender_id := a;
                           content := body; timestamp := t |}]) /\
  exists es, wire w1 = wire w ++ es /\
             Forall (fun e => exists h f,
                         e = SendText h f /\ f_sender_id f = a /\
                         (h = ws \/ exists k, active_connections w !! k = Some h))
                    es.
Proof.
  unfold loop_body, bind, as_dict, ret, raise, add_conversation, add_message,
    connections_get, send_text.
  destruct what as [[obj |] now |]; [destruct obj | |]; cbn;
    try (intros [= <- <-]; split; [left; reflexivity |];
         split; [left; reflexivity |];
         exists []; split; [symmetry; apply app_nil_r | constructor]).
  repeat (match goal with
          | |- context [if ?c then _ else _] => destruct c
          | |- context [match dict_get ?k ?d with _ => _ end] =>
              destruct (dict_get k d)
          | |- context [match active_connections ?w !! ?k with _ => _ end] =>
              destruct (active_connections w !! k) eqn:?
          end; cbn);
    intros [= <- <-]; cbn;
    (split; [first [left; reflexivity | right; eexists; reflexivity] |]);
    (split; [first [left; reflexivity | right; do 3 eexists; reflexivity] |]);
    rewrite <- ?app_assoc;
    first [ exists []; split; [symmetry; apply app_nil_r | constructor]
          | eexists; split; [reflexivity |];
            repeat (constructor;
                    [do 2 eexists; split; [reflexivity |];
                     split; [reflexivity |];
                     first [left; reflexivity | right; eexists; eassumption] |]);
            constructor ].
Qed.

(** What an event does to store and wire: nothing that is not a pass
    through the loop body of a session in its loop, except the [Accept] and
    [Close] of a new connection. *)
Lemma step_writes (w : World) (ev : event) :
  (db (step w ev) = db w /\
   exists es, wire (step w ev) = wire w ++ es /\
              Forall (fun e => forall h f, e <> SendText h f) es) \/
  (exists ws a what w1 r,
      ev = Receive ws what /\
      sessions w !! ws = Some (Active a) /\
      loop_body a ws what w = (w1, r) /\
      db (step w ev) = db w1 /\
      wire (step w ev) = wire w1).
Proof.
  destruct ev as [ws token | ws what]; cbn.
  - left. destruct (sessions w !! ws).
    + split; [reflexivity |]. exists []. split; [symmetry; apply app_nil_r | constructor].
    + unfold open. destruct (falsy _); [| destruct (PyInt.int _)]; cbn;
        (split; [reflexivity |]); rewrite <- ?app_assoc;
        (eexists; split; [reflexivity |]);
        repeat (constructor; [intros h f; discriminate |]); constructor.
  - destruct (sessions w !! ws) as [[a | ? ?] |] eqn:Hs;
      try (left; split; [reflexivity |]; exists [];
           split; [symmetry; apply app_nil_r | constructor]).
    right. unfold turn. destruct (loop_body a ws what w) as [w1 r] eqn:Hbody.
    exists ws, a, what, w1, r.
    split; [reflexivity |]. split; [exact Hs |]. split; [exact Hbody |].
    destruct r as [u | e]; [split; reflexivity |]. destruct e; split; reflexivity.
Qed.

Lemma next_id_new (ids : list Z) : NoDup ids -> NoDup (ids ++ [next_id ids]).
Proof.
  intros Hnd. apply NoDup_app. split; [exact Hnd |]. split.
  - intros x Hx Hnext. apply list_elem_of_singleton in Hnext. subst x.
    apply next_id_above in Hx. lia.
  - apply NoDup_singleton.
Qed.

Lemma unique_keys_step (w : World) (ev : event) :
  unique_keys (db w) -> unique_keys (db (step w ev)).
Proof.
  unfold unique_keys. intros [Hc Hm].
  destruct (step_writes w ev)
    as [[-> _] | (ws & a & what & w1 & r & _ & _ & Hbody & -> & _)];
    [split; assumption |].
  apply loop_body_writes in Hbody as ([-> | [b ->]] & [-> | (c & body & t & ->)] & _);
    split; rewrite ?fmap_app; cbn; try assumption; apply next_id_new; assumption.
Qed.

(** X3: the relay keeps primary keys unique.  From a store whose
    conversations and messages have pairwise distinct ids, whatever
    connections, frames and disconnects follow, no two conversations and no
    two messages share an id. *)
Theorem relay_keeps_keys_unique (w : World) (evs : list event) :
  unique_keys (db w) ->
  unique_keys (db (run w evs)).
Proof.
  revert w. induction evs as [| ev evs IH]; intros w Hw; [exact Hw |].
  change (run w (ev :: evs)) with (run (step w ev) evs).
  apply IH, unique_keys_step, Hw.
Qed.

(** X4: the relay never removes or rewrites a stored message.  A message
    that GET /messages returns for a conversation is still returned for it
    after any further connections, frames and disconnects. *)
Theorem stored_message_stays_readable
    (w : World) (evs : list event) (cid : Z) (m : Message) :
  m ∈ get_messages cid (db w) ->
  m ∈ get_messages cid (db (run w evs)).
Proof.
  intros Hm. destruct (run_extends evs w) as [[ms Hms] _].
  apply elem_of_get_messages in Hm as [Hin Hcid].
  apply elem_of_get_messages. split; [| exact Hcid].
  rewrite Hms. apply elem_of_app. left. exact Hin.
Qed.

Lemma authenticated_step (w : World) (ev : event) (u : Z) :
  authenticated w u -> authenticated (step w ev) u.
Proof.
  intros (ws & s & Hws & Hid). unfold authenticated.
  destruct (step_lifecycle w ev)
    as [Hs Hr | ws0 token u0 _ Hnew _ Hs Hr | ws0 token how _ Hnew Hs Hr
        | ws0 u0 _ Hact Hs Hr | ws0 u0 what e _ Hact Hs Hr];
    rewrite Hs; clear Hs Hr.
  - eauto.
  - exists ws, s. rewrite lookup_insert_ne by congruence. auto.
  - exists ws, s. rewrite lookup_insert_ne by congruence. auto.
  - destruct (decide (ws0 = ws)) as [-> | Hne].
    + rewrite Hact in Hws. injection Hws as <-. cbn in Hid.
      eexists _, _. rewrite lookup_insert_eq. split; [reflexivity | exact Hid].
    + exists ws, s. rewrite lookup_insert_ne by assumption. auto.
  - destruct (decide (ws0 = ws)) as [-> | Hne].
    + rewrite Hact in Hws. injection Hws as <-. cbn in Hid.
      eexists _, _. rewrite lookup_insert_eq. split; [reflexivity | exact Hid].
    + exists ws, s. rewrite lookup_insert_ne by assumption. auto.
Qed.

Lemma attributed_step (w : World) (ev : event) :
  ((forall m, m ∈ messages (db w) -> authenticated w (sender_id m)) /\
   (forall c, c ∈ conversations (db w) -> authenticated w (user_a c)) /\
   (forall h f, SendText h f ∈ wire w -> authenticated w (f_sender_id f))) ->
  (forall m, m ∈ messages (db (step w ev)) ->
             authenticated (step w ev) (sender_id m)) /\
  (forall c, c ∈ conversations (db (step w ev)) ->
             authenticated (step w ev) (user_a c)) /\
  (forall h f, SendText h f ∈ wire (step w ev) ->
               authenticated (step w ev) (f_sender_id f)).
Proof.
  intros (Hm & Hc & Hf).
  destruct (step_writes w ev)
    as [[Hdb (es & Hes & Hnone)]
       | (ws & a & what & w1 & r & _ & Hact & Hbody & Hdb & Hwire)];
    rewrite Hdb.
  - split; [| split].
    + intros m Hin. apply authenticated_step, Hm, Hin.
    + intros c Hin. apply authenticated_step, Hc, Hin.
    + intros h f. rewrite Hes, elem_of_app. intros [Hin | Hin].
      * apply authenticated_step, (Hf h), Hin.
      * rewrite Forall_forall in Hnone. exfalso. exact (Hnone _ Hin h f eq_refl).
  - assert (authenticated (step w ev) a) as Ha
      by (apply authenticated_step; exists ws, (Active a); auto).
    apply loop_body_writes in Hbody as (Hcs & Hms & es & Hes & Hsent).
    split; [| split].
    + intros m. destruct Hms as [-> | (c & body & t & ->)].
      * intros Hin. apply authenticated_step, Hm, Hin.
      * rewrite elem_of_app, list_elem_of_singleton. intros [Hin | ->].
        -- apply authenticated_step, Hm, Hin.
        -- exact Ha.
    + intros c. destruct Hcs as [-> | (b & ->)].
      * intros Hin. apply authenticated_step, Hc, Hin.
      * rewrite elem_of_app, list_elem_of_singleton. intros [Hin | ->].
        -- apply authenticated_step, Hc, Hin.
        -- exact Ha.
    + intros h f. rewrite Hwire, Hes, elem_of_app. intros [Hin | Hin].
      * apply authenticated_step, (Hf h), Hin.
      * rewrite Forall_forall in Hsent.
        destruct (Hsent _ Hin) as (h' & f' & [= <- <-] & <- & _). exact Ha.
Qed.

(** X5: nothing the relay stores or sends can name a sender that did not
    authenticate.  At every point of an execution, the sender of every
    stored message, the first user of every conversation and the sender
    named in every frame sent is the identity under which some session was
    opened: the fields of an inbound frame have no say in it. *)
Theorem sender_is_authenticated (evs : list event) :
  let w := run boot evs in
  (forall m, m ∈ messages (db w) -> authenticated w (sender_id m)) /\
  (forall c, c ∈ conversations (db w) -> authenticated w (user_a c)) /\
  (forall h f, SendText h f ∈ wire w -> authenticated w (f_sender_id f)).
Proof.
  cbv zeta. induction evs as [| ev evs IH] using rev_ind.
  - cbn. repeat split; intros; exfalso; eapply not_elem_of_nil; eassumption.
  - rewrite run_snoc. apply attributed_step, IH.
Qed.

(** ** Conversations as the two users see them *)

Lemma turn_adds_conversation (w : World) (ws : WebSocket) (a : Z) (d : dict)
      (utcnow : Z) :
  dict_get "conversation_id" d = JNull ->
  accepts_conversation (db w) a (dict_get "to" d) = true ->
  conversations (db (turn a ws (Text (Some (JObj d)) utcnow) w))
  = conversations (db w) ++ [new_conversation (db w) a d].
Proof.
  intros Hconv Hc.
  unfold turn, loop_body, bind, as_dict, ret, raise, add_conversation,
    add_message, connections_get, send_text, new_conversation.
  rewrite Hconv. cbn. rewrite Hc. cbn.
  repeat (match goal with
          | |- context [if ?c then _ else _] => destruct c
          | |- context [match dict_get ?k ?d with _ => _ end] =>
              destruct (dict_get k d)
          | |- context [match active_connections ?w !! ?k with _ => _ end] =>
              destruct (active_connections w !! k)
          end; cbn); reflexivity.
Qed.

(** X6: a conversation the relay creates for a first message from A to B
    is listed by GET /conversations for A and for B, under the same id. *)
Theorem new_conversation_listed_for_both
    (w : World) (ws : WebSocket) (a b : Z) (d : dict) (utcnow : Z) :
  sessions w !! ws = Some (Active a) ->
  dict_get "conversation_id" d = JNull ->
  dict_get "to" d = JInt b ->
  accepts_conversation (db w) a (JInt b) = true ->
  let w' := step w (Receive ws (Text (Some (JObj d)) utcnow)) in
  let conv := {| c_id := next_id (c_id <$> conversations (db w));
                 user_a := a; user_b := JInt b |} in
  conv ∈ get_conversations a (db w') /\
  conv ∈ get_conversations b (db w').
Proof.
  intros Hs Hconv Hto Hc w' conv. subst w'.
  rewrite (step_receive _ _ _ _ Hs).
  unfold get_conversations. rewrite turn_adds_conversation
    by (rewrite ?Hto; assumption).
  unfold new_conversation. rewrite Hto. fold conv.
  split; apply list_elem_of_In, filter_In; split;
    try (apply in_or_app; right; left; reflexivity);
    unfold takes_part; cbn; rewrite Z.eqb_refl; auto using orb_true_r.
Qed.

(** ** Frames the loop body cannot digest *)

(** X7: a text that is not JSON, or is JSON but not an object, ends the
    session by an exception the handler does not catch.  Nothing is stored,
    nothing is sent, and the registry is left as it was: if the user's
    entry pointed at this socket, it still does. *)
Theorem undecodable_text_ends_session
    (w : World) (ws : WebSocket) (a : Z) (parsed : option json) (utcnow : Z) :
  sessions w !! ws = Some (Active a) ->
  (forall members, parsed <> Some (JObj members)) ->
  let w' := step w (Receive ws (Text parsed utcnow)) in
  (exists e, sessions w' !! ws = Some (Closed (Some a) (Crashed e)) /\
             (e = JSONDecodeError \/ e = AttributeError)) /\
  active_connections w' = active_connections w /\
  db w' = db w /\
  wire w' = wire w.
Proof.
  intros Hs Hnot w'. subst w'. rewrite (step_receive _ _ _ _ Hs).
  unfold turn, loop_body, bind, as_dict, ret, raise.
  destruct parsed as [[| | | | | members] |]; cbn;
    try (split; [eexists; split; [apply lookup_insert_eq | auto] | auto]).
  exfalso. exact (Hnot members eq_refl).
Qed.

(** X8: a frame whose recipient is a list or an object is stored when the
    store accepts it, and then ends the session on the registry lookup:
    the message is in the table and nobody is sent a frame, not even the
    sender. *)
Theorem unhashable_recipient_stored_unsent
    (w : World) (ws : WebSocket) (a : Z) (d : dict) (utcnow : Z) :
  sessions w !! ws = Some (Active a) ->
  store_accepts (db w) a d = true ->
  hashable (dict_get "to" d) = false ->
  let w' := step w (Receive ws (Text (Some (JObj d)) utcnow)) in
  sessions w' !! ws = Some (Closed (Some a) (Crashed TypeError)) /\
  messages (db w') = messages (db w) ++ [stored_message (db w) a d utcnow] /\
  wire w' = wire w.
Proof.
  intros Hs Hacc Hhash w'. subst w'. rewrite (step_receive _ _ _ _ Hs).
  unfold turn, loop_body, bind, as_dict, ret, raise, add_conversation,
    add_message, connections_get, send_text, store_accepts, stored_message,
    new_conversation, conversation_ref, hashable in *.
  destruct (is_None (dict_get "conversation_id" d)) eqn:Hconv; rewrite ?Hconv; cbn.
  - apply andb_prop in Hacc as [Hc Hm]. rewrite Hc. cbn. rewrite Hm. cbn.
    destruct (dict_get "to" d); try discriminate; cbn;
      rewrite lookup_insert_eq; auto.
  - rewrite Hacc. cbn.
    destruct (dict_get "to" d); try discriminate; cbn;
      rewrite lookup_insert_eq; auto.
Qed.

(** X16: a frame goes to the sender and to the addressee, to nobody
    else.  Whatever the inbound frame holds and however the turn ends, every
    frame it puts on the wire is sent on the session's own socket or on the
    socket the registry holds for the frame's recipient. *)
Theorem no_frame_for_third_parties
    (w : World) (ws : WebSocket) (a : Z) (d : dict) (utcnow : Z)
    (h : WebSocket) (f : Frame) :
  sessions w !! ws = Some (Active a) ->
  SendText h f ∈ wire (step w (Receive ws (Text (Some (JObj d)) utcnow))) ->
  SendText h f ∈ wire w \/
  f = outbound (db w) a d utcnow /\
  (h = ws \/ peer_of w (dict_get "to" d) = Some h).
Proof.
  intros Hs. rewrite (step_receive _ _ _ _ Hs).
  destruct (store_accepts (db w) a d) eqn:Hacc.
  - destruct (hashable (dict_get "to" d)) eqn:Hhash.
    + destruct (recipient_live w (dict_get "to" d)) eqn:Hlive.
      * rewrite (turn_delivers _ _ _ _ _ Hs Hacc Hhash Hlive). cbn [wire].
        rewrite !elem_of_app.
        intros [Hold | [Hpeer | Hecho]]; [left; exact Hold | ..].
        -- right. destruct (peer_of w (dict_get "to" d)) as [peer |];
             [| apply elem_of_nil in Hpeer; contradiction].
           apply list_elem_of_singleton in Hpeer. injection Hpeer as -> ->. auto.
        -- right. apply list_elem_of_singleton in Hecho.
           injection Hecho as -> ->. auto.
      * apply recipient_not_live in Hlive as (peer & Hpeer & Hended).
        destruct (turn_stale w ws peer a d utcnow Hacc Hpeer Hended)
          as (_ & _ & _ & ->).
        auto.
    + destruct (turn_unhashable w ws a d utcnow Hacc Hhash) as (_ & _ & _ & ->).
      auto.
  - destruct (turn_refused w ws a d utcnow Hacc) as (_ & _ & _ & ->). auto.
Qed.

(** X17: a frame for a user whose registered socket belongs to a handler
    that has ended is stored, and the send to that socket raises: nothing is
    sent, the echo is not reached, the sender's own session ends with
    RuntimeError, and the registry keeps both entries. *)
Theorem stale_recipient_ends_sender
    (w : World) (ws peer : WebSocket) (a : Z) (d : dict) (utcnow : Z) :
  sessions w !! ws = Some (Active a) ->
  store_accepts (db w) a d = true ->
  peer_of w (dict_get "to" d) = Some peer ->
  ended w peer = true ->
  let w' := step w (Receive ws (Text (Some (JObj d)) utcnow)) in
  sessions w' !! ws = Some (Closed (Some a) (Crashed RuntimeError)) /\
  messages (db w') = messages (db w) ++ [stored_message (db w) a d utcnow] /\
  wire w' = wire w /\
  active_connections w' = active_connections w.
Proof.
  intros Hs Hacc Hpeer Hended w'. subst w'. rewrite (step_receive _ _ _ _ Hs).
  destruct (turn_stale w ws peer a d utcnow Hacc Hpeer Hended)
    as (-> & -> & -> & ->).
  rewrite lookup_insert_eq. auto.
Qed.

End Writes.

(** ** DELETE /conversation/{conversation_id} *)

Lemma find_none_all {A : Type} (f : A -> bool) (l : list A) :
  (forall x, In x l -> f x = false) -> List.find f l = None.
Proof.
  induction l as [| y l IH]; intros Hall; cbn; [reflexivity |].
  rewrite (Hall y) by (left; reflexivity). apply IH.
  intros x Hx. apply Hall. right. exact Hx.
Qed.

Lemma find_in_app {A : Type} (f : A -> bool) (l l' : list A) :
  List.find f l = None -> List.find f (l ++ l') = List.find f l'.
Proof.
  induction l as [| y l IH]; cbn; [reflexivity |].
  destruct (f y); [discriminate | exact IH].
Qed.

Lemma filter_of_filter {A : Type} (f g : A -> bool) (l : list A) :
  (forall x, In x l -> f x = true -> g x = true) ->
  List.filter f (List.filter g l) = List.filter f l.
Proof.
  induction l as [| y l IH]; intros Himp; cbn; [reflexivity |].
  assert (List.filter f (List.filter g l) = List.filter f l) as IH'
    by (apply IH; intros x Hx; apply Himp; right; exact Hx).
  destruct (g y) eqn:Hg; cbn.
  - rewrite IH'. reflexivity.
  - destruct (f y) eqn:Hf; [| exact IH'].
    rewrite (Himp y) in Hg by (auto; left; reflexivity). discriminate.
Qed.

Lemma same_key_same_row {A : Type} (key : A -> Z) (l : list A) (x y : A) :
  NoDup (key <$> l) -> In x l -> In y l -> key x = key y -> x = y.
Proof.
  induction l as [| z l IH]; cbn; [tauto |].
  rewrite NoDup_cons. intros [Hz Hnd] [-> | Hx] [-> | Hy] Hkey.
  - reflexivity.
  - exfalso. apply Hz. rewrite Hkey. apply list_elem_of_fmap.
    exists y. split; [reflexivity | apply list_elem_of_In; exact Hy].
  - exfalso. apply Hz. rewrite <- Hkey. apply list_elem_of_fmap.
    exists x. split; [reflexivity | apply list_elem_of_In; exact Hx].
  - apply IH; assumption.
Qed.

(** A stored message outlives the deletion of conversation [cid] when it is
    not one of that conversation's. *)
Lemma survives_deletion (cid : Z) (s : Store) (m : Message) :
  NoDup (m_id <$> messages s) ->
  In m (messages s) ->
  existsb (Z.eqb (m_id m))
          (m_id <$> List.filter (in_conversation cid) (messages s))
  = in_conversation cid m.
Proof.
  intros Hnd Hin. destruct (in_conversation cid m) eqn:Hconv.
  - apply existsb_exists. exists (m_id m). split; [| apply Z.eqb_refl].
    apply list_elem_of_In, list_elem_of_fmap. exists m.
    split; [reflexivity |]. apply list_elem_of_In, filter_In. auto.
  - destruct (existsb _ _) eqn:Hex; [| reflexivity].
    apply existsb_exists in Hex as (k & Hk & Heq). apply Z.eqb_eq in Heq.
    apply list_elem_of_In, list_elem_of_fmap in Hk as (m2 & -> & Hm2).
    apply list_elem_of_In, filter_In in Hm2 as [Hin2 Hconv2].
    rewrite (same_key_same_row m_id _ m m2 Hnd Hin Hin2 Heq) in Hconv. congruence.
Qed.

(** X9: deleting an existing conversation removes that conversation and
    the messages stored under its id, and nothing else: GET /messages then
    answers with nothing for that id and as before for every other id.
    (Message keys are taken to be unique, as the relay keeps them.) *)
Theorem delete_removes_conversation_and_its_messages
    (cid : Z) (s : Store) (conv : Conversation) :
  In conv (conversations s) ->
  c_id conv = cid ->
  NoDup (m_id <$> messages s) ->
  let s' := fst (delete_conversation cid s) in
  snd (delete_conversation cid s) = Sent "Conversation deleted successfully" /\
  (forall c, In c (conversations s') <-> In c (conversations s) /\ c_id c <> cid) /\
  (forall m, In m (messages s') <->
             In m (messages s) /\ sql_integer (conversation_id m) <> Some cid) /\
  get_messages cid s' = [] /\
  forall other, other <> cid -> get_messages other s' = get_messages other s.
Proof.
  intros Hconv Hid Hnd s'. subst s'. unfold delete_conversation.
  destruct (List.find (fun c => c_id c =? cid) (conversations s)) as [found |] eqn:Hfind.
  2:{ exfalso. apply (find_none _ _ Hfind) in Hconv. cbn in Hconv. lia. }
  apply find_some in Hfind as [_ Hfound]. apply Z.eqb_eq in Hfound.
  cbn [fst snd conversations messages]. rewrite Hfound.
  assert (forall m, In m (messages s) ->
            negb (existsb (Z.eqb (m_id m))
                    (m_id <$> List.filter (in_conversation cid) (messages s)))
            = negb (in_conversation cid m)) as Hkeep
    by (intros m Hm; rewrite survives_deletion by assumption; reflexivity).
  split; [reflexivity |]. split; [| split; [| split]].
  - intros c. rewrite filter_In, negb_true_iff, Z.eqb_neq. reflexivity.
  - intros m. rewrite filter_In. split.
    + intros [Hm Hk]. split; [exact Hm |]. rewrite Hkeep in Hk by exact Hm.
      unfold in_conversation in Hk. intros Heq. rewrite Heq, Z.eqb_refl in Hk.
      discriminate.
    + intros [Hm Hne]. split; [exact Hm |]. rewrite Hkeep by exact Hm.
      unfold in_conversation. destruct (sql_integer (conversation_id m)) as [z |];
        [| reflexivity].
      apply negb_true_iff, Z.eqb_neq. congruence.
  - unfold get_messages. cbn [messages].
    assert (List.filter (in_conversation cid)
              (List.filter
                 (fun m => negb (existsb (Z.eqb (m_id m))
                                   (m_id <$> List.filter (in_conversation cid)
                                                         (messages s))))
                 (messages s)) = []) as ->; [| reflexivity].
    match goal with
    | |- ?kept = [] => destruct kept as [| m rest] eqn:Hrest; [reflexivity |]
    end.
    assert (In m (m :: rest)) as Hm by (left; reflexivity).
    rewrite <- Hrest in Hm. apply filter_In in Hm as [Hm Hc].
    apply filter_In in Hm as [Hm Hk]. rewrite Hkeep, Hc in Hk by exact Hm.
    discriminate.
  - intros other Hother. unfold get_messages. cbn [messages]. f_equal.
    apply filter_of_filter. intros m Hm Hc. rewrite Hkeep by exact Hm.
    apply negb_true_iff. unfold in_conversation in *.
    destruct (sql_integer (conversation_id m)) as [z |]; [| reflexivity].
    apply Z.eqb_eq in Hc. apply Z.eqb_neq. congruence.
Qed.

(** X10: a repeated DELETE of the same conversation id is always answered
    with 404 and changes nothing, whether the first one found the
    conversation or not. *)
Theorem delete_again_is_404 (cid : Z) (s : Store) :
  delete_conversation cid (fst (delete_conversation cid s))
  = (fst (delete_conversation cid s),
     HTTPException 404 "Conversation not found").
Proof.
  unfold delete_conversation at 2 3.
  destruct (List.find (fun c => c_id c =? cid) (conversations s)) as [found |] eqn:Hfind;
    cbn [fst].
  - apply find_some in Hfind as [_ Hfound]. apply Z.eqb_eq in Hfound.
    unfold delete_conversation. cbn [conversations].
    rewrite find_none_all; [reflexivity |].
    intros c Hc. apply filter_In in Hc as [_ Hc].
    apply negb_true_iff in Hc. rewrite Hfound in Hc. exact Hc.
  - unfold delete_conversation. rewrite Hfind. reflexivity.
Qed.

(** ** /register and /login *)

Section AccountRoutes.

Context `{Env : Collaborators} `{Acc : Accounts}.

(** What a successful /register did. *)
Lemma register_sent (payload : dict) (users users' : list User)
      (uid : Z) (name : string) :
  register payload users = (users', Sent (uid, name)) ->
  exists hashed,
    truthy (dict_get "username" payload) = true /\
    truthy (dict_get "password" payload) = true /\
    as_text (dict_get "username" payload) = Return name /\
    user_named name users = None /\
    hash_password (dict_get "password" payload) = Return hashed /\
    uid = next_id (u_id <$> users) /\
    users' = users ++ [{| u_id := uid; username := name;
                          password_hash := hashed |}].
Proof.
  unfold register.
  destruct (truthy (dict_get "username" payload)); [| discriminate].
  destruct (truthy (dict_get "password" payload)); [| discriminate]. cbn.
  destruct (as_text (dict_get "username" payload)) as [n |]; [| discriminate].
  destruct (user_named n users) eqn:Hnamed; [discriminate |].
  destruct (hash_password (dict_get "password" payload)) as [h |]; [| discriminate].
  cbn. intros [= <- <- <-]. exists h. repeat split. exact Hnamed.
Qed.

Lemma user_named_none (name : string) (users : list User) :
  user_named name users = None <-> name ∉ username <$> users.
Proof.
  unfold user_named. split.
  - intros Hnone Hin. apply list_elem_of_fmap in Hin as (u & -> & Hu).
    apply list_elem_of_In in Hu. apply (find_none _ _ Hnone) in Hu.
    cbn in Hu. rewrite String.eqb_refl in Hu. discriminate.
  - intros Hnot. apply find_none_all. intros u Hu.
    destruct (String.eqb (username u) name) eqn:Heq; [| reflexivity].
    apply String.eqb_eq in Heq. exfalso. apply Hnot.
    apply list_elem_of_fmap. exists u. split; [congruence |].
    apply list_elem_of_In. exact Hu.
Qed.

(** X11: /register keeps the user table well keyed: whatever the payload,
    if no two users shared a username or an id before the call, none do
    after it; a user is added only when the call answers with that user,
    and then at the end of the table, with the next id. *)
Theorem register_keeps_users_distinct (payload : dict) (users : list User) :
  NoDup (username <$> users) ->
  NoDup (u_id <$> users) ->
  let users' := fst (register payload users) in
  NoDup (username <$> users') /\
  NoDup (u_id <$> users') /\
  (users' = users \/
   exists user, users' = users ++ [user] /\
                snd (register payload users) = Sent (u_id user, username user) /\
                u_id user = next_id (u_id <$> users)).
Proof.
  intros Hnames Hids users'. subst users'.
  destruct (register payload users) as [users' answer] eqn:Hreg. cbn [fst snd].
  assert (users' = users \/ exists uid name, answer = Sent (uid, name)) as [-> | Hsent].
  { revert Hreg. unfold register.
    repeat (match goal with
            | |- context [if ?c then _ else _] => destruct c
            | |- context [match ?x with _ => _ end] => destruct x
            end; cbn);
      intros [= <- <-]; eauto. }
  - auto.
  - destruct Hsent as (uid & name & ->).
    apply register_sent in Hreg
      as (hashed & _ & _ & _ & Hfree & _ & -> & ->).
    apply user_named_none in Hfree.
    rewrite !fmap_app. cbn. repeat split.
    + apply NoDup_app. split; [exact Hnames |]. split; [| apply NoDup_singleton].
      intros x Hx Hname. apply list_elem_of_singleton in Hname. congruence.
    + apply NoDup_app. split; [exact Hids |]. split; [| apply NoDup_singleton].
      intros x Hx Hnext. apply list_elem_of_singleton in Hnext. subst x.
      apply next_id_above in Hx. lia.
    + right. eexists. repeat split.
Qed.

(** X12: a user who has just registered can log in with the same payload,
    provided auth.py's verify_password accepts a password against its own
    hash: /login answers with that user's id and name and a token whose
    sub is the text of the id. *)
Theorem register_then_login
    (payload : dict) (users users' : list User) (uid : Z) (name : string) :
  register payload users = (users', Sent (uid, name)) ->
  (forall hashed,
      hash_password (dict_get "password" payload) = Return hashed ->
      verify_password (dict_get "password" payload) hashed = Return true) ->
  login payload users'
  = Sent (create_access_token [("sub", JStr (str uid))], (uid, name)).
Proof.
  intros Hreg Hverify.
  apply register_sent in Hreg
    as (hashed & Hname & _ & Htext & Hfree & Hhash & _ & ->).
  unfold login. rewrite Htext.
  assert (user_named name
            (users ++ [{| u_id := uid; username := name;
                          password_hash := hashed |}])
          = Some {| u_id := uid; username := name; password_hash := hashed |})
    as Hfound.
  { unfold user_named in *. rewrite (find_in_app _ _ _ Hfree). cbn.
    rewrite String.eqb_refl. reflexivity. }
  destruct (dict_get "username" payload); try discriminate;
    rewrite Hfound; cbn; rewrite (Hverify _ Hhash); reflexivity.
Qed.

(** X13: a username can be registered once.  After a successful
    /register, another /register with the same username is answered with
    400 "Username already exists" whatever its password, and adds
    nothing. *)
Theorem register_same_name_refused
    (first second : dict) (users users' : list User) (uid : Z) (name : string) :
  register first users = (users', Sent (uid, name)) ->
  dict_get "username" second = dict_get "username" first ->
  truthy (dict_get "password" second) = true ->
  register second users'
  = (users', HTTPException 400 "Username already exists").
Proof.
  intros Hreg Hsame Hpw.
  apply register_sent in Hreg
    as (hashed & Hname & _ & Htext & Hfree & _ & _ & ->).
  unfold register. rewrite Hsame, Hname, Hpw, Htext. cbn.
  unfold user_named in *. rewrite (find_in_app _ _ _ Hfree). cbn.
  rewrite String.eqb_refl. reflexivity.
Qed.

(** X14: /login hands out a token only for a stored user whose hash
    verify_password accepted for the password sent; the token is the one
    create_access_token makes from the text of that user's id, and the
    answer names that user.  A missing username never logs in. *)
Theorem login_needs_verified_password
    (payload : dict) (users : list User) (token : string) (uid : Z)
    (name : string) :
  login payload users = Sent (token, (uid, name)) ->
  dict_get "username" payload <> JNull /\
  exists user,
    user ∈ users /\
    u_id user = uid /\
    username user = name /\
    as_text (dict_get "username" payload) = Return name /\
    verify_password (dict_get "password" payload) (password_hash user)
    = Return true /\
    token = create_access_token [("sub", JStr (str uid))].
Proof.
  unfold login. intros Hlogin.
  assert (dict_get "username" payload <> JNull) as Hname
    by (intros Hnull; rewrite Hnull in Hlogin; discriminate).
  split; [exact Hname |].
  assert (exists n, as_text (dict_get "username" payload) = Return n /\
                    match user_named n users with
                    | None => HTTPException 400 "User not found"
                    | Some user =>
                        match verify_password (dict_get "password" payload)
                                (password_hash user) with
                        | Raise e => Uncaught e
                        | Return false => HTTPException 400 "Incorrect password"
                        | Return true =>
                            Sent (create_access_token
                                    [("sub", JStr (str (u_id user)))],
                                  (u_id user, username user))
                        end
                    end = Sent (token, (uid, name))) as (n & Htext & Hrest).
  { destruct (dict_get "username" payload); try congruence;
      (destruct (as_text _) as [n |]; [| discriminate]);
      exists n; (split; [reflexivity | exact Hlogin]). }
  clear Hlogin.
  destruct (user_named n users) as [user |] eqn:Hfound; [| discriminate].
  apply find_some in Hfound as [Hin Heq]. apply String.eqb_eq in Heq.
  destruct (verify_password _ _) as [[|] |] eqn:Hverify; try discriminate.
  injection Hrest as <- <- <-. exists user.
  split; [apply list_elem_of_In; exact Hin |].
  repeat split; congruence.
Qed.

(** X15: the token of a successful /login opens a relay session under the
    user who logged in.  When the decoder gives back the sub that was
    signed, connecting with that token on a new socket registers that
    user's id with the socket and puts the session in its loop. *)
Theorem login_token_opens_session
    (payload : dict) (users : list User) (token : string) (uid : Z)
    (name : string) (decoded : dict) (w : World) (ws : WebSocket) :
  login payload users = Sent (token, (uid, name)) ->
  decode_access_token (create_access_token [("sub", JStr (str uid))])
  = Some decoded ->
  dict_get "sub" decoded = JStr (str uid) ->
  sessions w !! ws = None ->
  let w' := step w (Connect ws token) in
  active_connections w' !! uid = Some ws /\
  sessions w' !! ws = Some (Active uid) /\
  wire w' = wire w ++ [Accept ws].
Proof.
  intros Hlogin Hdecode Hsub Hnew w'. subst w'.
  assert (token = create_access_token [("sub", JStr (str uid))]) as ->.
  { revert Hlogin. unfold login.
    repeat (match goal with
            | |- context [match ?x with _ => _ end] => destruct x
            end; cbn); congruence. }
  assert (authenticates (create_access_token [("sub", JStr (str uid))]) uid)
    as Hauth.
  { unfold authenticates. rewrite Hdecode. split.
    - destruct decoded; [discriminate | reflexivity].
    - change (default [] (Some decoded)) with decoded. rewrite Hsub.
      unfold PyInt.int. rewrite of_str_str. reflexivity. }
  rewrite (step_connect _ _ _ Hnew), (open_registers _ _ _ _ Hauth). cbn.
  rewrite !lookup_insert_eq. auto.
Qed.

End AccountRoutes.

(** ** The other routes at work *)

Lemma relay_keeps_keys_unique_witness :
  unique_keys (db boot) /\
  unique_keys (db Sample.three_greetings).
Proof.
  assert (unique_keys (db boot)) as H by (split; constructor).
  split; [exact H |].
  exact (@relay_keeps_keys_unique Sample.env boot
           [Connect 1 "alice"; Connect 2 "bob"; Sample.text 1 Sample.hi 100;
            Sample.text 1 Sample.hi 101; Sample.text 2 Sample.hello_back 102] H).
Defined.

Lemma stored_message_stays_readable_witness :
  Fixtures.first_greeting ∈ get_messages 1 (db Sample.alice_wrote_bob) /\
  Fixtures.first_greeting
    ∈ get_messages 1
        (db (Sample.run Sample.alice_wrote_bob
               [Sample.text 3 Sample.into_conversation_1 50;
                Receive 1 ConnectionLost; Receive 2 (Text None 0)])).
Proof.
  assert (Fixtures.first_greeting
            ∈ get_messages 1 (db Sample.alice_wrote_bob)) as H
    by (vm_compute; apply list_elem_of_here).
  split; [exact H |].
  exact (@stored_message_stays_readable Sample.env Sample.alice_wrote_bob
           [Sample.text 3 Sample.into_conversation_1 50;
            Receive 1 ConnectionLost; Receive 2 (Text None 0)]
           1 Fixtures.first_greeting H).
Defined.

Lemma new_conversation_listed_for_both_witness :
  (sessions Sample.alice_and_bob !! 1%nat = Some (Active 1) /\
   dict_get "conversation_id" Sample.hi = JNull /\
   dict_get "to" Sample.hi = JInt 2 /\
   @accepts_conversation Sample.env (db Sample.alice_and_bob) 1 (JInt 2) = true) /\
  ({| c_id := 1; user_a := 1; user_b := JInt 2 |}
     ∈ get_conversations 1
         (db (Sample.step Sample.alice_and_bob (Sample.text 1 Sample.hi 100))) /\
   {| c_id := 1; user_a := 1; user_b := JInt 2 |}
     ∈ get_conversations 2
         (db (Sample.step Sample.alice_and_bob (Sample.text 1 Sample.hi 100)))).
Proof.
  assert (sessions Sample.alice_and_bob !! 1%nat = Some (Active 1)) as H1
    by (vm_compute; reflexivity).
  assert (dict_get "conversation_id" Sample.hi = JNull) as H2
    by (vm_compute; reflexivity).
  assert (dict_get "to" Sample.hi = JInt 2) as H3 by (vm_compute; reflexivity).
  assert (@accepts_conversation Sample.env (db Sample.alice_and_bob) 1 (JInt 2)
          = true) as H4 by (vm_compute; reflexivity).
  split; [repeat split; assumption |].
  exact (@new_conversation_listed_for_both Sample.env Sample.alice_and_bob
           1%nat 1 2 Sample.hi 100 H1 H2 H3 H4).
Defined.

Lemma undecodable_text_ends_session_witness :
  (sessions Sample.alice_and_bob !! 1%nat = Some (Active 1) /\
   forall members, Some (JArr [JInt 2]) <> Some (JObj members)) /\
  active_connections
    (Sample.step Sample.alice_and_bob (Receive 1 (Text (Some (JArr [JInt 2])) 0)))
  = active_connections Sample.alice_and_bob.
Proof.
  assert (sessions Sample.alice_and_bob !! 1%nat = Some (Active 1)) as H1
    by (vm_compute; reflexivity).
  assert (forall members, Some (JArr [JInt 2]) <> Some (JObj members)) as H2
    by (intros members; discriminate).
  split; [split; assumption |].
  exact (proj1 (proj2 (@undecodable_text_ends_session Sample.env
                         Sample.alice_and_bob 1%nat 1 (Some (JArr [JInt 2])) 0
                         H1 H2))).
Defined.

Lemma unhashable_recipient_stored_unsent_witness :
  (sessions Sample.alice_wrote_bob !! 1%nat = Some (Active 1) /\
   @store_accepts Sample.env (db Sample.alice_wrote_bob) 1
     Fixtures.to_a_list = true /\
   hashable (dict_get "to" Fixtures.to_a_list) = false) /\
  (sessions (Sample.step Sample.alice_wrote_bob
               (Sample.text 1 Fixtures.to_a_list 7)) !! 1%nat
   = Some (Closed (Some 1) (Crashed TypeError)) /\
   wire (Sample.step Sample.alice_wrote_bob
           (Sample.text 1 Fixtures.to_a_list 7))
   = wire Sample.alice_wrote_bob).
Proof.
  assert (sessions Sample.alice_wrote_bob !! 1%nat = Some (Active 1)) as H1
    by (vm_compute; reflexivity).
  assert (@store_accepts Sample.env (db Sample.alice_wrote_bob) 1
            Fixtures.to_a_list = true) as H2 by (vm_compute; reflexivity).
  assert (hashable (dict_get "to" Fixtures.to_a_list) = false) as H3
    by (vm_compute; reflexivity).
  split; [repeat split; assumption |].
  pose proof (@unhashable_recipient_stored_unsent Sample.env
                Sample.alice_wrote_bob 1%nat 1 Fixtures.to_a_list 7
                H1 H2 H3) as (Hs & _ & Hw).
  split; [exact Hs | exact Hw].
Defined.

Lemma delete_removes_conversation_and_its_messages_witness :
  (In {| c_id := 1; user_a := 1; user_b := JInt 2 |}
      (conversations (db Sample.three_greetings)) /\
   NoDup (m_id <$> messages (db Sample.three_greetings))) /\
  (get_messages 1 (fst (delete_conversation 1 (db Sample.three_greetings))) = [] /\
   get_messages 2 (fst (delete_conversation 1 (db Sample.three_greetings)))
   = get_messages 2 (db Sample.three_greetings)).
Proof.
  assert (In {| c_id := 1; user_a := 1; user_b := JInt 2 |}
             (conversations (db Sample.three_greetings))) as H1
    by (vm_compute; left; reflexivity).
  assert (NoDup (m_id <$> messages (db Sample.three_greetings))) as H2.
  { vm_compute. repeat (constructor; [rewrite ?elem_of_cons, elem_of_nil; lia |]).
    constructor. }
  split; [split; assumption |].
  pose proof (@delete_removes_conversation_and_its_messages 1
                (db Sample.three_greetings)
                {| c_id := 1; user_a := 1; user_b := JInt 2 |} H1 eq_refl H2)
    as (_ & _ & _ & Hgone & Hrest).
  split; [exact Hgone | apply Hrest; lia].
Defined.

Lemma register_keeps_users_distinct_witness :
  (NoDup (username <$> Fixtures.one_user) /\
   NoDup (u_id <$> Fixtures.one_user)) /\
  NoDup (username <$>
           fst (@register Fixtures.acc
                  [("username", JStr "bob"); ("password", JStr "builder")]
                  Fixtures.one_user)).
Proof.
  assert (NoDup (username <$> Fixtures.one_user)) as H1
    by (cbn; repeat constructor; rewrite elem_of_nil; tauto).
  assert (NoDup (u_id <$> Fixtures.one_user)) as H2
    by (cbn; repeat constructor; rewrite elem_of_nil; tauto).
  split; [split; assumption |].
  exact (proj1 (@register_keeps_users_distinct Fixtures.acc
                  [("username", JStr "bob"); ("password", JStr "builder")]
                  Fixtures.one_user H1 H2)).
Defined.

Lemma register_then_login_witness :
  @register Fixtures.acc Fixtures.alice_form []
  = (Fixtures.one_user, Sent (1, "alice")) /\
  @login Fixtures.acc Fixtures.alice_form Fixtures.one_user
  = Sent ("alice", (1, "alice")).
Proof.
  assert (@register Fixtures.acc Fixtures.alice_form []
          = (Fixtures.one_user, Sent (1, "alice"))) as H1
    by (vm_compute; reflexivity).
  split; [exact H1 |].
  refine (@register_then_login Fixtures.acc Fixtures.alice_form []
            Fixtures.one_user 1 "alice" H1 _).
  intros hashed. vm_compute. intros [= <-]. reflexivity.
Defined.

Lemma register_same_name_refused_witness :
  (@register Fixtures.acc Fixtures.alice_form []
   = (Fixtures.one_user, Sent (1, "alice")) /\
   dict_get "username" Fixtures.alice_again
   = dict_get "username" Fixtures.alice_form /\
   truthy (dict_get "password" Fixtures.alice_again) = true) /\
  @register Fixtures.acc Fixtures.alice_again Fixtures.one_user
  = (Fixtures.one_user, HTTPException 400 "Username already exists").
Proof.
  assert (@register Fixtures.acc Fixtures.alice_form []
          = (Fixtures.one_user, Sent (1, "alice"))) as H1
    by (vm_compute; reflexivity).
  assert (dict_get "username" Fixtures.alice_again
          = dict_get "username" Fixtures.alice_form) as H2
    by (vm_compute; reflexivity).
  assert (truthy (dict_get "password" Fixtures.alice_again) = true) as H3
    by (vm_compute; reflexivity).
  split; [repeat split; assumption |].
  exact (@register_same_name_refused Fixtures.acc
           Fixtures.alice_form Fixtures.alice_again []
           Fixtures.one_user 1 "alice" H1 H2 H3).
Defined.

Lemma login_needs_verified_password_witness :
  @login Fixtures.acc Fixtures.alice_form Fixtures.one_user
  = Sent ("alice", (1, "alice")) /\
  exists user,
    user ∈ Fixtures.one_user /\
    @verify_password Fixtures.acc
      (dict_get "password" Fixtures.alice_form) (password_hash user)
    = Return true.
Proof.
  assert (@login Fixtures.acc Fixtures.alice_form
            Fixtures.one_user = Sent ("alice", (1, "alice"))) as H1
    by (vm_compute; reflexivity).
  split; [exact H1 |].
  destruct (@login_needs_verified_password Fixtures.acc
              Fixtures.alice_form Fixtures.one_user
              "alice" 1 "alice" H1)
    as (_ & user & Hin & _ & _ & _ & Hverify & _).
  exists user. split; assumption.
Defined.

Lemma login_token_opens_session_witness :
  (@login Fixtures.acc Fixtures.alice_form Fixtures.one_user
   = Sent ("alice", (1, "alice")) /\
   @decode_access_token Sample.env
     (@create_access_token Fixtures.acc [("sub", JStr (str 1))])
   = Some [("sub", JStr "1")] /\
   dict_get "sub" [("sub", JStr "1")] = JStr (str 1) /\
   sessions boot !! 7%nat = None) /\
  (active_connections (Sample.step boot (Connect 7 "alice")) !! 1 = Some 7%nat /\
   sessions (Sample.step boot (Connect 7 "alice")) !! 7%nat = Some (Active 1)).
Proof.
  assert (@login Fixtures.acc Fixtures.alice_form
            Fixtures.one_user = Sent ("alice", (1, "alice"))) as H1
    by (vm_compute; reflexivity).
  assert (@decode_access_token Sample.env
            (@create_access_token Fixtures.acc [("sub", JStr (str 1))])
          = Some [("sub", JStr "1")]) as H2 by (vm_compute; reflexivity).
  assert (dict_get "sub" [("sub", JStr "1")] = JStr (str 1)) as H3
    by (vm_compute; reflexivity).
  assert (sessions boot !! 7%nat = None) as H4 by (vm_compute; reflexivity).
  split; [repeat split; assumption |].
  pose proof (@login_token_opens_session Sample.env Fixtures.acc
                Fixtures.alice_form Fixtures.one_user "alice" 1
                "alice" [("sub", JStr "1")] boot 7%nat H1 H2 H3 H4)
    as (Hreg & Hs & _).
  split; [exact Hreg | exact Hs].
Defined.

Lemma no_frame_for_third_parties_witness :
  (sessions Sample.alice_wrote_bob !! 1%nat = Some (Active 1) /\
   SendText 2 {| f_conversation_id := JInt 2; f_sender_id := 1;
                 f_content := JStr "hi"; f_timestamp := 9 |}
     ∈ wire (Sample.step Sample.alice_wrote_bob (Sample.text 1 Sample.hi 9))) /\
  (SendText 2 {| f_conversation_id := JInt 2; f_sender_id := 1;
                 f_content := JStr "hi"; f_timestamp := 9 |}
     ∈ wire Sample.alice_wrote_bob \/
   {| f_conversation_id := JInt 2; f_sender_id := 1;
      f_content := JStr "hi"; f_timestamp := 9 |}
   = outbound (db Sample.alice_wrote_bob) 1 Sample.hi 9 /\
   (2%nat = 1%nat \/
    peer_of Sample.alice_wrote_bob (dict_get "to" Sample.hi) = Some 2%nat)).
Proof.
  assert (sessions Sample.alice_wrote_bob !! 1%nat = Some (Active 1)) as H1
    by (vm_compute; reflexivity).
  assert (SendText 2 {| f_conversation_id := JInt 2; f_sender_id := 1;
                        f_content := JStr "hi"; f_timestamp := 9 |}
            ∈ wire (Sample.step Sample.alice_wrote_bob
                      (Sample.text 1 Sample.hi 9))) as H2.
  { vm_compute. do 5 apply list_elem_of_further. apply list_elem_of_here. }
  split; [split; assumption |].
  exact (@no_frame_for_third_parties Sample.env Sample.alice_wrote_bob 1%nat 1
           Sample.hi 9 2%nat _ H1 H2).
Defined.

Lemma stale_recipient_ends_sender_witness :
  (sessions Fixtures.bob_crashed !! 1%nat = Some (Active 1) /\
   @store_accepts Sample.env (db Fixtures.bob_crashed) 1 Sample.hi = true /\
   peer_of Fixtures.bob_crashed (dict_get "to" Sample.hi) = Some 2%nat /\
   ended Fixtures.bob_crashed 2 = true) /\
  (sessions (Sample.step Fixtures.bob_crashed (Sample.text 1 Sample.hi 100))
     !! 1%nat = Some (Closed (Some 1) (Crashed RuntimeError)) /\
   messages (db (Sample.step Fixtures.bob_crashed (Sample.text 1 Sample.hi 100)))
   = [{| m_id := 1; conversation_id := JInt 1; sender_id := 1;
         content := JStr "hi"; timestamp := 100 |}] /\
   wire (Sample.step Fixtures.bob_crashed (Sample.text 1 Sample.hi 100))
   = [Accept 1; Accept 2]).
Proof.
  assert (sessions Fixtures.bob_crashed !! 1%nat = Some (Active 1)) as H1
    by (vm_compute; reflexivity).
  assert (@store_accepts Sample.env (db Fixtures.bob_crashed) 1 Sample.hi = true)
    as H2 by (vm_compute; reflexivity).
  assert (peer_of Fixtures.bob_crashed (dict_get "to" Sample.hi) = Some 2%nat)
    as H3 by (vm_compute; reflexivity).
  assert (ended Fixtures.bob_crashed 2 = true) as H4 by (vm_compute; reflexivity).
  split; [repeat split; assumption |].
  pose proof (@stale_recipient_ends_sender Sample.env Fixtures.bob_crashed
                1%nat 2%nat 1 Sample.hi 100 H1 H2 H3 H4) as (Hs & Hm & Hw & _).
  split; [exact Hs |]. split; [exact Hm | exact Hw].
Defined.
